(** * Mastodon sentiment aggregation: a shallow embedding and its properties

    The repository holds two variants of one MPI program:
    - [src/main.py], [src/util.py], [src/MastodonData.py]: the first variant,
      with a distributed top-n stage (scatter, local [heapq.nlargest],
      [comm.reduce] with [merge_list]);
    - [src/src/main.py], [src/src/util.py], [src/src/MastodonData.py],
      [src/src/analysis.py]: the refined variant, with chunked reading,
      a coercion of the sentiment to a float, and the [MastodonAnalyzer]
      class that also keeps day sums and post counts.

    Module [Py] models the Python values and library functions the program
    relies on, [Dict] the dictionaries, [Heapq], [Numpy] and [MPI] the
    library calls of the top-n stage. Module [Src] embeds the first
    variant, [SrcSrc] and [Analysis] the refined one, function by function
    and under the source's names. [Sample] holds concrete inputs, [Spec]
    the notions the properties are stated with; the properties follow.

    Numbers: a JSON number is an integer of [Z] (JSON literals with a
    fraction or an exponent are not among the decoded values). The first
    variant keeps it as a Python [int], whose sums are exact. The refined
    variant converts it with [float()]: the conversion is modelled with
    its rounding to a double and its [OverflowError]; the sums of such
    floats are written with the addition of [Z], which stands for the
    [+] of Python applied to the same operands in the same order. No
    property below regroups or reorders the additions of a float sum:
    what needs that is stated for an arbitrary addition with the laws it
    needs as hypotheses, and the addition of IEEE doubles
    ([SpecFloat.SFadd]) is shown not to have them. *)

From Stdlib Require Import ZArith List String Ascii Bool Arith Lia.
From Stdlib Require Import Permutation Sorted.
From Stdlib Require SpecFloat.
Import ListNotations.

Set Warnings "-register-all,-abstract-large-number".

Local Open Scope string_scope.
Local Open Scope list_scope.

(** String concatenation, kept apart from the [++] of lists. *)
Notation "s +++ t" := (String.append s t) (at level 60, right associativity).

(* ================================================================== *)
(** * Python values and library functions *)
(* ================================================================== *)

Module Py.

(** The values [json.loads] produces. [True] and [False] are the integers
    1 and 0: [bool] is a subclass of [int], and every operation modelled
    below ([+], [==], hashing, truth value, [float()]) treats them so. *)
Inductive value : Type :=
| VNone
| VNum (z : Z)
| VStr (s : string)
| VList (l : list value)
| VDict (d : list (string * value)).

(** The exceptions that occur in the modelled code. *)
Inductive exn : Type := ValueError | TypeError | AttributeError | OverflowError.

Inductive result (A : Type) : Type :=
| Ok (a : A)
| Raise (e : exn).
Arguments Ok {A} a.
Arguments Raise {A} e.

Definition bind {A B : Type} (r : result A) (k : A -> result B) : result B :=
  match r with
  | Ok a => k a
  | Raise e => Raise e
  end.

Notation "x <- r ;; k" := (bind r (fun x => k))
  (at level 61, r at next level, right associativity).

(** Truth value of an object, as [if v:] and [not v] test it. *)
Definition truthy (v : value) : bool :=
  match v with
  | VNone => false
  | VNum z => negb (z =? 0)%Z
  | VStr s => negb (s =? "")
  | VList l => match l with [] => false | _ => true end
  | VDict d => match d with [] => false | _ => true end
  end.

(** [v is None]. *)
Definition is_None (v : value) : bool :=
  match v with VNone => true | _ => false end.

(** Lookup in a decoded JSON object. *)
Fixpoint assoc (k : string) (d : list (string * value)) : option value :=
  match d with
  | [] => None
  | (k', v) :: t => if k' =? k then Some v else assoc k t
  end.

(** [obj.get(k, default)]: only a dict has the method. *)
Definition py_get (obj : value) (k : string) (default : value) : result value :=
  match obj with
  | VDict d => Ok (match assoc k d with Some v => v | None => default end)
  | _ => Raise AttributeError
  end.

(** [acc + v] where [acc] is a number. *)
Definition num_add (acc : Z) (v : value) : result Z :=
  match v with
  | VNum z => Ok (acc + z)%Z
  | _ => Raise TypeError
  end.

(** [a + b] on arbitrary values: numbers add, strings and lists
    concatenate, anything else is a [TypeError]. *)
Definition py_add (a b : value) : result value :=
  match a, b with
  | VNum x, VNum y => Ok (VNum (x + y))
  | VStr s, VStr t => Ok (VStr (s +++ t))
  | VList l, VList r => Ok (VList (l ++ r))
  | _, _ => Raise TypeError
  end.

(** Hashable values, the keys of a [dict]. *)
Inductive hkey : Type :=
| KNone
| KNum (z : Z)
| KStr (s : string).

Definition hkey_eqb (a b : hkey) : bool :=
  match a, b with
  | KNone, KNone => true
  | KNum x, KNum y => (x =? y)%Z
  | KStr s, KStr t => s =? t
  | _, _ => false
  end.

(** Hashing a value: lists and dicts are unhashable. *)
Definition to_key (v : value) : result hkey :=
  match v with
  | VNone => Ok KNone
  | VNum z => Ok (KNum z)
  | VStr s => Ok (KStr s)
  | VList _ | VDict _ => Raise TypeError
  end.

(** ** Strings *)

(** [str.strip] on ASCII text, where the white space of [str.isspace] is
    the tabulations, line ends and separators below. It is the [strip] of
    the sample decoders; the [strip] of the program is a field of
    [Runtime]. *)
Definition isspace (c : ascii) : bool :=
  let n := nat_of_ascii c in
  ((9 <=? n) && (n <=? 13) || (28 <=? n) && (n <=? 32))%nat.

Fixpoint lstrip (s : string) : string :=
  match s with
  | EmptyString => EmptyString
  | String c t => if isspace c then lstrip t else s
  end.

Fixpoint rstrip (s : string) : string :=
  match s with
  | EmptyString => EmptyString
  | String c t =>
      match rstrip t with
      | EmptyString => if isspace c then EmptyString else String c EmptyString
      | t' => String c t'
      end
  end.

Definition ascii_strip (s : string) : string := rstrip (lstrip s).

(** [s.replace('Z', '+00:00')]. *)
Fixpoint replace_Z (s : string) : string :=
  match s with
  | EmptyString => EmptyString
  | String c t =>
      if Ascii.eqb c "Z"%char then "+00:00" +++ replace_Z t
      else String c (replace_Z t)
  end.

(** [v.replace('Z', '+00:00')]: only a [str] has the method. *)
Definition py_replace_Z (v : value) : result string :=
  match v with
  | VStr s => Ok (replace_Z s)
  | _ => Raise AttributeError
  end.

(** ** Dates *)

Record datetime : Type := mkdatetime {
  year : nat; month : nat; day : nat; hour : nat; minute : nat; second : nat
}.

Definition digit (n : nat) : ascii := ascii_of_nat (48 + n mod 10).

Definition pad2 (n : nat) : string :=
  String (digit (n / 10)) (String (digit n) EmptyString).

Definition pad4 (n : nat) : string :=
  String (digit (n / 1000)) (String (digit (n / 100))
    (String (digit (n / 10)) (String (digit n) EmptyString))).

Inductive format : Type :=
| fmt_hour  (* "%Y-%m-%d %H" *)
| fmt_day.  (* "%Y-%m-%d" *)

(** [dt.strftime(fmt)] for the two formats the program uses; the year is
    written on four digits. *)
Definition strftime (dt : datetime) (fmt : format) : string :=
  let d := pad4 (year dt) +++ "-" +++ pad2 (month dt) +++ "-" +++ pad2 (day dt) in
  match fmt with
  | fmt_hour => d +++ " " +++ pad2 (hour dt)
  | fmt_day => d
  end.

(** ** The library functions the program calls

    [json.loads], [datetime.datetime.fromisoformat], the conversion of a
    string by [float()] and [str.strip] (with its table of Unicode white
    space) are library code: they are taken as given, [None] standing
    for the exception each one raises on a bad input. *)
Class Runtime : Type := {
  json_loads : string -> option value;
  fromisoformat : string -> option datetime;
  float_of_str : string -> option Z;
  strip : string -> string
}.

(** [float(z)] for an [int]: the nearest double, ties to even, as the
    integer it is worth; [None] when the result is beyond the largest
    double and [float()] raises [OverflowError]. *)
Definition double_of_Z (z : Z) : option Z :=
  match SpecFloat.binary_normalize 53 1024 z 0 false with
  | SpecFloat.S754_zero _ => Some 0%Z
  | SpecFloat.S754_finite s m e =>
      Some ((if s then -1 else 1) * Z.shiftl (Zpos m) e)%Z
  | SpecFloat.S754_infinity _ | SpecFloat.S754_nan => None
  end.

(** The doubles themselves, for the laws of their addition: a Python
    [float] is an IEEE 754 binary64 number, [x + y] the sum rounded to
    the nearest double, [x == y] the comparison of the standard, and the
    literal [n/d] in decimal the double nearest to the ratio. *)
Definition float : Type := SpecFloat.spec_float.
Definition float_add (x y : float) : float := SpecFloat.SFadd 53 1024 x y.
Definition float_eqb (x y : float) : bool := SpecFloat.SFeqb x y.
Definition float_zero : float := SpecFloat.S754_zero false.
Definition float_of_ratio (n d : Z) : float :=
  SpecFloat.SFdiv 53 1024 (SpecFloat.binary_normalize 53 1024 n 0 false)
    (SpecFloat.binary_normalize 53 1024 d 0 false).

(** [float(v)]. *)
Definition py_float `{Runtime} (v : value) : result Z :=
  match v with
  | VNum z =>
      match double_of_Z z with Some x => Ok x | None => Raise OverflowError end
  | VStr s => match float_of_str s with Some z => Ok z | None => Raise ValueError end
  | VNone | VList _ | VDict _ => Raise TypeError
  end.

End Py.

(* ================================================================== *)
(** * Dictionaries *)
(* ================================================================== *)

(** Keys of a [dict]: a type with the equality test [__eq__] gives. *)
Class Key (K : Type) : Type := { keqb : K -> K -> bool }.

#[export] Instance string_Key : Key string := {| keqb := String.eqb |}.
#[export] Instance hkey_Key : Key Py.hkey := {| keqb := Py.hkey_eqb |}.

(** The test decides equality. *)
Class KeyLaws (K : Type) `{Key K} : Prop := {
  keqb_eq : forall a b : K, keqb a b = true <-> a = b
}.

(** A [dict] is the list of its items in insertion order: assigning to a
    key that is present keeps its position, a new key goes to the end.
    [items()] is the list itself, which is what [heapq.nlargest] and
    [numpy.array_split] iterate over. *)
Module Dict.
Section Dict.
Context {K V : Type} `{Key K}.

Definition t : Type := list (K * V).

(** [d.get(k)], [None] when the key is absent. *)
Fixpoint get (d : t) (k : K) : option V :=
  match d with
  | [] => None
  | (k', v) :: r => if keqb k' k then Some v else get r k
  end.

(** [k in d]. *)
Definition contains (d : t) (k : K) : bool :=
  match get d k with Some _ => true | None => false end.

(** [d.get(k, default)], also [d[k]] on a [defaultdict]. *)
Definition get_default (d : t) (k : K) (default : V) : V :=
  match get d k with Some v => v | None => default end.

(** [d[k] = v]. *)
Fixpoint set (d : t) (k : K) (v : V) : t :=
  match d with
  | [] => [(k, v)]
  | (k', v') :: r =>
      if keqb k' k then (k', v) :: r else (k', v') :: set r k v
  end.

Definition keys (d : t) : list K := map fst d.

(** Two dicts are equal in the sense of [==]: same keys, same values,
    whatever the insertion order. *)
Definition equiv (a b : t) : Prop := forall k, get a k = get b k.

(** A well-formed dict holds each key once. *)
Definition wf (d : t) : Prop := NoDup (keys d).
End Dict.
Arguments t K V : clear implicits.
End Dict.

(* ================================================================== *)
(** * heapq, numpy and the MPI reduction *)
(* ================================================================== *)

Module Heapq.
Section Heapq.
Context {A : Type}.
Variable key : A -> Z.

(** Insertion of [a], which stood before every element of [l] in the
    input, into the decreasing list [l]: [a] passes the elements with a
    strictly larger key only. *)
Fixpoint insert_desc (a : A) (l : list A) : list A :=
  match l with
  | [] => [a]
  | b :: r => if (key a <? key b)%Z then b :: insert_desc a r else a :: l
  end.

(** [sorted(l, key=key, reverse=True)]: decreasing keys, elements with
    equal keys in their original order. *)
Definition sorted_reverse (l : list A) : list A := fold_right insert_desc [] l.

Fixpoint insert_asc (a : A) (l : list A) : list A :=
  match l with
  | [] => [a]
  | b :: r => if (key b <? key a)%Z then b :: insert_asc a r else a :: l
  end.

(** [sorted(l, key=key)]: increasing keys, stable. *)
Definition sorted (l : list A) : list A := fold_right insert_asc [] l.

(** [heapq.nlargest(n, l, key=key)], which the library documents as
    [sorted(l, key=key, reverse=True)[:n]]. *)
Definition nlargest (n : nat) (l : list A) : list A :=
  firstn n (sorted_reverse l).

(** [heapq.nsmallest(n, l, key=key)], documented as
    [sorted(l, key=key)[:n]]. *)
Definition nsmallest (n : nat) (l : list A) : list A :=
  firstn n (sorted l).

(** [heapq.merge(x, y, key=key)]: the head with the smaller key comes
    first, the head of [x] when the keys are equal. *)
Fixpoint merge (x : list A) : list A -> list A :=
  fix merge_x (y : list A) : list A :=
    match x, y with
    | [], _ => y
    | _, [] => x
    | a :: x', b :: y' =>
        if (key a <=? key b)%Z then a :: merge x' y else b :: merge_x y'
    end.
End Heapq.
End Heapq.

Module Numpy.
Section Numpy.
Context {A : Type}.

(** The section sizes of [numpy.array_split(ary, n)]: with
    [each, extras = divmod(len(ary), n)], [extras] sections of
    [each + 1] elements followed by [n - extras] sections of [each]. *)
Definition section_sizes (len n : nat) : list nat :=
  repeat (len / n + 1)%nat (len mod n) ++ repeat (len / n)%nat (n - len mod n).

Fixpoint take_sections (l : list A) (sizes : list nat) : list (list A) :=
  match sizes with
  | [] => []
  | s :: r => firstn s l :: take_sections (skipn s l) r
  end.

(** [numpy.array_split(l, n)] as the list of its sections. The conversion
    of the items to a numpy array (and of their fields to one dtype) is
    not modelled: the sections hold the items as they are. *)
Definition array_split (l : list A) (n : nat) : list (list A) :=
  take_sections l (section_sizes (List.length l) n).
End Numpy.
End Numpy.

Module MPI.
Section MPI.
Context {A : Type}.

(** The shape of a reduction: the contributions of the ranks are the
    leaves, in rank order, and every node applies the operator to the
    result of the lower ranks and the result of the higher ranks. *)
Inductive tree : Type :=
| Leaf (a : A)
| Node (l r : tree).

Fixpoint leaves (t : tree) : list A :=
  match t with
  | Leaf a => [a]
  | Node l r => leaves l ++ leaves r
  end.

(** [comm.reduce(sendobj, op=op)] along the tree [t]. *)
Fixpoint reduce (op : A -> A -> A) (t : tree) : A :=
  match t with
  | Leaf a => a
  | Node l r => op (reduce op l) (reduce op r)
  end.
End MPI.
Arguments tree : clear implicits.
End MPI.

Import Py.

(* ================================================================== *)
(** * The first variant: src/MastodonData.py, src/util.py, src/main.py *)
(* ================================================================== *)

Module Src.

(** ** src/MastodonData.py *)

Record MastodonData_obj : Type := mkMastodonData {
  created_at : value;
  sentiment : value;
  user_id : value;
  username : value
}.

(** [MastodonData(data)]: a line that is not JSON raises [ValueError]; a
    JSON value without [get] (anything but an object) raises
    [AttributeError]. The sentiment defaults to 0 when the key is missing. *)
Definition MastodonData `{Runtime} (data : string) : result MastodonData_obj :=
  match json_loads data with
  | None => Raise ValueError
  | Some json_data =>
      created_at <- py_get json_data "created_at" (VStr "") ;;
      sentiment <- py_get json_data "sentiment" (VNum 0) ;;
      account <- py_get json_data "account" (VDict []) ;;
      user_id <- py_get account "id" (VStr "") ;;
      username <- py_get account "username" (VStr "") ;;
      Ok (mkMastodonData created_at sentiment user_id username)
  end.

(** ** src/util.py *)

(** [preprocess_data(data)]: the stripped line, [None] for a blank one. *)
Definition preprocess_data `{Runtime} (data : string) : option string :=
  if strip data =? "" then None else Some (strip data).

(** The hour key of a time stamp:
    [fromisoformat(created_at.replace('Z', '+00:00')).strftime("%Y-%m-%d %H")]. *)
Definition hour_key_of `{Runtime} (created_at : value) : result string :=
  s <- py_replace_Z created_at ;;
  match fromisoformat s with
  | Some created_datetime => Ok (strftime created_datetime fmt_hour)
  | None => Raise ValueError
  end.

Definition hour_dict : Type := Dict.t string Z.
Definition user_dict : Type := Dict.t hkey (value * value).

(** The second block of [processing_data]: sentiment per user. An
    exception leaves through the outer [except], which keeps what the
    dictionaries hold at that point. *)
Definition process_user (mastodon_data : MastodonData_obj)
    (user_sentiment_dict : user_dict) : user_dict :=
  if truthy (user_id mastodon_data) && negb (is_None (sentiment mastodon_data)) then
    match to_key (user_id mastodon_data) with
    | Raise _ => user_sentiment_dict
    | Ok uid =>
        match Dict.get user_sentiment_dict uid with
        | Some (_, score) =>
            match py_add score (sentiment mastodon_data) with
            | Ok total =>
                Dict.set user_sentiment_dict uid (username mastodon_data, total)
            | Raise _ => user_sentiment_dict
            end
        | None =>
            Dict.set user_sentiment_dict uid
              (username mastodon_data, sentiment mastodon_data)
        end
    end
  else user_sentiment_dict.

(** [processing_data(preprocessed_line, hour_sentiment_dict,
    user_sentiment_dict)]: the two dictionaries after the call. A date
    that does not parse ends the call ([return] in the inner [except]);
    any other exception ends it through the outer [except]. *)
Definition processing_data `{Runtime} (preprocessed_line : string)
    (hour_sentiment_dict : hour_dict) (user_sentiment_dict : user_dict)
  : hour_dict * user_dict :=
  match MastodonData preprocessed_line with
  | Raise _ => (hour_sentiment_dict, user_sentiment_dict)
  | Ok mastodon_data =>
      if truthy (created_at mastodon_data)
         && negb (is_None (sentiment mastodon_data)) then
        match hour_key_of (created_at mastodon_data) with
        | Raise _ => (hour_sentiment_dict, user_sentiment_dict)
        | Ok hour_key =>
            match num_add (Dict.get_default hour_sentiment_dict hour_key 0%Z)
                          (sentiment mastodon_data) with
            | Raise _ => (hour_sentiment_dict, user_sentiment_dict)
            | Ok total =>
                (Dict.set hour_sentiment_dict hour_key total,
                 process_user mastodon_data user_sentiment_dict)
            end
        end
      else (hour_sentiment_dict, process_user mastodon_data user_sentiment_dict)
  end.

(** [merge_list(x, y, n)]: the loop appends one head per iteration, the
    head of [x] when [x[0][1] >= y[0][1]], until [merged] holds [n] items
    or both lists are empty. [ge a b] stands for [a[1] >= b[1]]; [fuel] is
    [n - len(merged)]. *)
Section MergeList.
Context {A : Type}.
Variable ge : A -> A -> bool.

Fixpoint merge_loop (fuel : nat) (merged x y : list A) : list A :=
  match fuel with
  | O => merged
  | S fuel' =>
      match x, y with
      | [], [] => merged
      | a :: x', [] => merge_loop fuel' (merged ++ [a]) x' []
      | [], b :: y' => merge_loop fuel' (merged ++ [b]) [] y'
      | a :: x', b :: y' =>
          if ge a b then merge_loop fuel' (merged ++ [a]) x' y
          else merge_loop fuel' (merged ++ [b]) x y'
      end
  end.

Definition merge_list (x y : list A) (n : nat) : list A :=
  merge_loop n [] x y.
End MergeList.

(** ** src/main.py *)

(** The line range of rank [comm_rank]: [(line_to_start, line_to_end)]. *)
Definition line_range (n_lines comm_size comm_rank : nat) : nat * nat :=
  let lines_per_core := (n_lines / comm_size)%nat in
  let line_to_start := (lines_per_core * comm_rank)%nat in
  let line_to_end :=
    if (comm_rank <? comm_size - 1)%nat then (line_to_start + lines_per_core)%nat
    else n_lines in
  (line_to_start, line_to_end).

(** The reading loop over [enumerate(read_data_line_by_line(path))]:
    [continue] before [line_to_start], [break] from [line_to_end] on,
    [body] on the lines between. *)
Section Loop.
Context {S : Type}.
Variable body : string -> S -> S.

Fixpoint read_loop (line_number : nat) (file : list string)
    (line_to_start line_to_end : nat) (st : S) : S :=
  match file with
  | [] => st
  | line :: rest =>
      if (line_number <? line_to_start)%nat then
        read_loop (Datatypes.S line_number) rest line_to_start line_to_end st
      else if (line_to_end <=? line_number)%nat then st
      else read_loop (Datatypes.S line_number) rest line_to_start line_to_end
             (body line st)
  end.
End Loop.

(** The lines a rank hands to the loop body. *)
Definition assigned_lines (file : list string) (comm_size comm_rank : nat)
  : list string :=
  let '(line_to_start, line_to_end) :=
    line_range (List.length file) comm_size comm_rank in
  read_loop (fun line acc => acc ++ [line]) 0 file line_to_start line_to_end [].

(** The loop body: [preprocess_data], then [processing_data] on a line
    that is not blank. *)
Definition process_line `{Runtime} (line : string) (st : hour_dict * user_dict)
  : hour_dict * user_dict :=
  match preprocess_data line with
  | Some preprocessed_line => processing_data preprocessed_line (fst st) (snd st)
  | None => st
  end.

(** The dictionaries of a rank after its pass over the file. *)
Definition map_phase `{Runtime} (file : list string) (comm_size comm_rank : nat)
  : hour_dict * user_dict :=
  let '(line_to_start, line_to_end) :=
    line_range (List.length file) comm_size comm_rank in
  read_loop process_line 0 file line_to_start line_to_end ([], []).

(** [operator.add(a, b)] on two dictionaries: neither [dict] nor
    [defaultdict] defines [+], the call raises [TypeError]. *)
Definition operator_add (a b : hour_dict) : result hour_dict := Raise TypeError.

(** [comm.reduce(hour_sentiment_dict, root=0, op=operator.add)] along the
    reduction tree of the ranks: with one rank no operator is applied,
    with more the root combines two dictionaries. *)
Fixpoint reduced_hour_sentiment (t : MPI.tree hour_dict) : result hour_dict :=
  match t with
  | MPI.Leaf d => Ok d
  | MPI.Node l r =>
      x <- reduced_hour_sentiment l ;;
      y <- reduced_hour_sentiment r ;;
      operator_add x y
  end.

Definition top_n : nat := 5.

(** The top-n stage, for items of type [A] ranked by [score] (the
    [key=] of [nlargest] and [nsmallest]) and merged by [ge] (the
    comparison [x[0][1] >= y[0][1]] of [merge_list]). *)
Section TopN.
Context {A : Type}.
Variable score : A -> Z.
Variable ge : A -> A -> bool.

(** [comm_size == 1]: the lists are taken from the whole dictionary. *)
Definition happiest_single (items : list A) : list A :=
  Heapq.nlargest score top_n items.
Definition saddest_single (items : list A) : list A :=
  Heapq.nsmallest score top_n items.

(** [comm_size > 1]: what each rank receives from [comm.scatter] and
    the local lists it contributes. *)
Definition scattered (items : list A) (comm_size : nat) : list (list A) :=
  Numpy.array_split items comm_size.

Definition local_happiest (items : list A) (comm_size : nat) : list (list A) :=
  map (Heapq.nlargest score top_n) (scattered items comm_size).
Definition local_saddest (items : list A) (comm_size : nat) : list (list A) :=
  map (Heapq.nsmallest score top_n) (scattered items comm_size).

(** [comm.reduce(local_happiest, op=merge_list)]. *)
Definition reduce_happiest (t : MPI.tree (list A)) : list A :=
  MPI.reduce (fun x y => merge_list ge x y top_n) t.

(** [comm.reduce(local_saddest, op=lambda x, y: merge_list(y, x))]. *)
Definition reduce_saddest (t : MPI.tree (list A)) : list A :=
  MPI.reduce (fun x y => merge_list ge y x top_n) t.
End TopN.

(** Hour items [(hour, score)]: [x[1]] is the score. *)
Definition hour_score (x : string * Z) : Z := snd x.
Definition hour_ge (x y : string * Z) : bool := (snd y <=? snd x)%Z.

End Src.

(* ================================================================== *)
(** * The refined variant: src/src/MastodonData.py, util.py, main.py,
      analysis.py *)
(* ================================================================== *)

Module SrcSrc.

(** ** src/src/MastodonData.py *)

(** [self.sentiment] is a float once [__init__] returns, so the field is a
    number here and the accumulators fed from it hold numbers. *)
Record MastodonData_obj : Type := mkMastodonData {
  created_at : value;
  sentiment : Z;
  user_id : value;
  username : value
}.

(** The sentiment of a decoded object: [json_data.get("sentiment")], 0 for
    [None], else [float(...)], 0 again when the conversion raises
    [ValueError] or [TypeError]. *)
Definition sentiment_of `{Runtime} (json_data : value) : result Z :=
  raw <- py_get json_data "sentiment" VNone ;;
  if is_None raw then Ok 0%Z
  else match py_float raw with
       | Ok x => Ok x
       | Raise ValueError | Raise TypeError => Ok 0%Z
       | Raise e => Raise e
       end.

(** [MastodonData(data)]. *)
Definition MastodonData `{Runtime} (data : string) : result MastodonData_obj :=
  match json_loads data with
  | None => Raise ValueError
  | Some json_data =>
      created_at <- py_get json_data "created_at" (VStr "") ;;
      sentiment <- sentiment_of json_data ;;
      account <- py_get json_data "account" (VDict []) ;;
      user_id <- py_get account "id" (VStr "") ;;
      username <- py_get account "username" (VStr "") ;;
      Ok (mkMastodonData created_at sentiment user_id username)
  end.

(** ** src/src/util.py *)

Definition preprocess_data `{Runtime} (data : string) : option string :=
  if strip data =? "" then None else Some (strip data).

(** [datetime.datetime.fromisoformat(created_at.replace('Z', '+00:00'))]. *)
Definition created_datetime_of `{Runtime} (created_at : value) : result datetime :=
  s <- py_replace_Z created_at ;;
  match fromisoformat s with
  | Some created_datetime => Ok created_datetime
  | None => Raise ValueError
  end.

Definition hour_dict : Type := Dict.t string Z.
Definition user_dict : Type := Dict.t hkey (value * Z).

(** Sentiment per user, the last block of [processing_data]; an id that
    cannot be hashed raises in [user_id in user_sentiment_dict] and the
    outer [except] passes. *)
Definition process_user (mastodon_data : MastodonData_obj)
    (user_sentiment_dict : user_dict) : user_dict :=
  if truthy (user_id mastodon_data) then
    match to_key (user_id mastodon_data) with
    | Raise _ => user_sentiment_dict
    | Ok uid =>
        match Dict.get user_sentiment_dict uid with
        | Some (_, score) =>
            Dict.set user_sentiment_dict uid
              (username mastodon_data, (score + sentiment mastodon_data)%Z)
        | None =>
            Dict.set user_sentiment_dict uid
              (username mastodon_data, sentiment mastodon_data)
        end
    end
  else user_sentiment_dict.

(** [processing_data(preprocessed_line, hour_sentiment_dict,
    user_sentiment_dict)]. An entry without [created_at] ends the call at
    the first guard (its other half, [sentiment is None], is never true of
    a float); an invalid date is passed over and the user block still
    runs. *)
Definition processing_data `{Runtime} (preprocessed_line : string)
    (hour_sentiment_dict : hour_dict) (user_sentiment_dict : user_dict)
  : hour_dict * user_dict :=
  match MastodonData preprocessed_line with
  | Raise _ => (hour_sentiment_dict, user_sentiment_dict)
  | Ok mastodon_data =>
      if negb (truthy (created_at mastodon_data)) then
        (hour_sentiment_dict, user_sentiment_dict)
      else
        let hour_sentiment_dict' :=
          match created_datetime_of (created_at mastodon_data) with
          | Ok created_datetime =>
              let hour_key := strftime created_datetime fmt_hour in
              Dict.set hour_sentiment_dict hour_key
                (Dict.get_default hour_sentiment_dict hour_key 0
                 + sentiment mastodon_data)%Z
          | Raise _ => hour_sentiment_dict
          end in
        (hour_sentiment_dict', process_user mastodon_data user_sentiment_dict)
  end.

(** [read_data_chunk(file_path, start_line, end_line)]: [start_line]
    lines are skipped, then lines are yielded while
    [i < end_line - start_line]. *)
Definition read_data_chunk (file : list string) (start_line end_line : nat)
  : list string :=
  firstn (end_line - start_line) (skipn start_line file).

(** [merge_list(x, y, n)]:
    [list(heapq.merge(x, y, key=lambda item: -item[1]))[:n]], where
    [field1] reads [item[1]]. *)
Definition merge_list {A : Type} (field1 : A -> Z) (x y : list A) (n : nat)
  : list A :=
  firstn n (Heapq.merge (fun item => (- field1 item)%Z) x y).

(** ** src/src/main.py *)

(** [(start_line, end_line)] of rank [comm_rank]. *)
Definition line_range (n_lines comm_size comm_rank : nat) : nat * nat :=
  let chunk_size := (n_lines / comm_size)%nat in
  let start_line := (comm_rank * chunk_size)%nat in
  let end_line :=
    if (comm_rank <? comm_size - 1)%nat then (start_line + chunk_size)%nat
    else n_lines in
  (start_line, end_line).

Definition max_chunk : nat := 10000.

(** [range(start, stop, step)] for a positive step. *)
Fixpoint range_from (fuel start stop step : nat) : list nat :=
  match fuel with
  | O => []
  | S fuel' =>
      if (start <? stop)%nat then start :: range_from fuel' (start + step) stop step
      else []
  end.

Definition range (start stop step : nat) : list nat :=
  range_from (stop - start) start stop step.

(** The lines a rank reads, sub-chunk after sub-chunk. *)
Definition assigned_lines (file : list string) (comm_size comm_rank : nat)
  : list string :=
  let '(start_line, end_line) :=
    line_range (List.length file) comm_size comm_rank in
  flat_map
    (fun chunk_start =>
       let chunk_end := Nat.min (chunk_start + max_chunk) end_line in
       read_data_chunk file chunk_start chunk_end)
    (range start_line end_line max_chunk).

Definition process_line `{Runtime} (st : hour_dict * user_dict) (line : string)
  : hour_dict * user_dict :=
  match preprocess_data line with
  | Some preprocessed_line => processing_data preprocessed_line (fst st) (snd st)
  | None => st
  end.

Definition map_phase `{Runtime} (file : list string) (comm_size comm_rank : nat)
  : hour_dict * user_dict :=
  fold_left process_line (assigned_lines file comm_size comm_rank) ([], []).

(** The merge loops of the root over the gathered dictionaries. The inner
    loop over [proc_data.items()] is the merge of one contribution into
    the running result. *)
Section Merge.
Context {K : Type} `{Key K}.

(** [for k, score in proc_data.items(): reduced[k] += score], on a
    [defaultdict]. *)
Definition merge_sum (reduced proc_data : Dict.t K Z) : Dict.t K Z :=
  fold_left
    (fun acc '(k, score) => Dict.set acc k (Dict.get_default acc k 0 + score)%Z)
    proc_data reduced.

(** The merge of the user dictionaries: scores are summed, the
    username is the one of the contribution merged last. *)
Definition merge_user (reduced proc_data : Dict.t K (value * Z))
  : Dict.t K (value * Z) :=
  fold_left
    (fun acc '(user_id, (username, score)) =>
       match Dict.get acc user_id with
       | Some (_, existing_score) =>
           Dict.set acc user_id (username, (existing_score + score)%Z)
       | None => Dict.set acc user_id (username, score)
       end)
    proc_data reduced.

(** The two loops for values of any type: [add] is the [+] of the values
    and [zero] the default of the [defaultdict]. [merge_sum] and
    [merge_user] above are the loops on integers. *)
Definition merge_add {V : Type} (add : V -> V -> V) (zero : V)
    (reduced proc_data : Dict.t K V) : Dict.t K V :=
  fold_left
    (fun acc '(k, score) => Dict.set acc k (add (Dict.get_default acc k zero) score))
    proc_data reduced.

Definition merge_user_add {V : Type} (add : V -> V -> V)
    (reduced proc_data : Dict.t K (value * V)) : Dict.t K (value * V) :=
  fold_left
    (fun acc '(user_id, (username, score)) =>
       match Dict.get acc user_id with
       | Some (_, existing_score) =>
           Dict.set acc user_id (username, add existing_score score)
       | None => Dict.set acc user_id (username, score)
       end)
    proc_data reduced.
End Merge.

Definition reduced_hour_sentiment (all_hour_data : list hour_dict) : hour_dict :=
  fold_left merge_sum all_hour_data [].

Definition reduced_user_sentiment (all_user_data : list user_dict) : user_dict :=
  fold_left merge_user all_user_data [].

Definition top_n : nat := 5.

(** The selection on the root, over [.items()] of the merged
    dictionaries. *)
Definition happiest_hours (d : hour_dict) : list (string * Z) :=
  Heapq.nlargest snd top_n d.
Definition saddest_hours (d : hour_dict) : list (string * Z) :=
  Heapq.nsmallest snd top_n d.
Definition happiest_users (d : user_dict) : list (hkey * (value * Z)) :=
  Heapq.nlargest (fun x => snd (snd x)) top_n d.
Definition saddest_users (d : user_dict) : list (hkey * (value * Z)) :=
  Heapq.nsmallest (fun x => snd (snd x)) top_n d.

End SrcSrc.

(* ================================================================== *)
(** * src/src/analysis.py: the MastodonAnalyzer class *)
(* ================================================================== *)

Module Analysis.

(** The accumulators of one [MastodonAnalyzer]. A user entry is the tuple
    [(username, sentiment_sum, post_count)]. *)
Record MastodonAnalyzer : Type := mkAnalyzer {
  hour_sentiment : Dict.t string Z;
  day_sentiment : Dict.t string Z;
  user_sentiment : Dict.t hkey (value * Z * Z);
  language_counts : Dict.t hkey Z;
  hourly_post_counts : Dict.t string Z;
  interaction_counts : Dict.t string Z;
  sentiment_values : list Z
}.

(** [MastodonAnalyzer(comm)]. *)
Definition init : MastodonAnalyzer := mkAnalyzer [] [] [] [] [] [] [].

Definition incr {K : Type} `{Key K} (d : Dict.t K Z) (k : K) (by_ : Z)
  : Dict.t K Z :=
  Dict.set d k (Dict.get_default d k 0 + by_)%Z.

(** The date block: hour sum, day sum and posts per hour, all three or,
    when the date does not parse, none. *)
Definition process_datetime `{Runtime} (mastodon_data : SrcSrc.MastodonData_obj)
    (self : MastodonAnalyzer) : MastodonAnalyzer :=
  match SrcSrc.created_datetime_of (SrcSrc.created_at mastodon_data) with
  | Ok created_datetime =>
      let hour_key := strftime created_datetime fmt_hour in
      let day_key := strftime created_datetime fmt_day in
      mkAnalyzer
        (incr (hour_sentiment self) hour_key (SrcSrc.sentiment mastodon_data))
        (incr (day_sentiment self) day_key (SrcSrc.sentiment mastodon_data))
        (user_sentiment self)
        (language_counts self)
        (incr (hourly_post_counts self) hour_key 1)
        (interaction_counts self)
        (sentiment_values self)
  | Raise _ => self
  end.

(** The user block; a [Raise] leaves through the outer [except]. *)
Definition process_user (mastodon_data : SrcSrc.MastodonData_obj)
    (users : Dict.t hkey (value * Z * Z)) : result (Dict.t hkey (value * Z * Z)) :=
  if truthy (SrcSrc.user_id mastodon_data) then
    uid <- to_key (SrcSrc.user_id mastodon_data) ;;
    match Dict.get users uid with
    | Some (_, score, count) =>
        Ok (Dict.set users uid
              (SrcSrc.username mastodon_data,
               (score + SrcSrc.sentiment mastodon_data)%Z, (count + 1)%Z))
    | None =>
        Ok (Dict.set users uid
              (SrcSrc.username mastodon_data, SrcSrc.sentiment mastodon_data, 1%Z))
    end
  else Ok users.

(** The block that reads the language and the interaction fields from the
    raw JSON. Its [except] passes, so an exception ends the block and
    keeps the counts written before it. [json_data] is an object here,
    [MastodonData(line)] having succeeded on the same line. The
    interaction counts are a [defaultdict(int)]: in
    [d["favorites"] += v] the read of [d["favorites"]] stores the default
    [0] under a missing key before the addition raises on a [v] that is
    not a number. *)
Definition process_additional `{Runtime} (line : string)
    (languages : Dict.t hkey Z) (interactions : Dict.t string Z)
  : Dict.t hkey Z * Dict.t string Z :=
  match json_loads line with
  | Some (VDict json_data) =>
      let get k := match assoc k json_data with Some v => v | None => VNone end in
      let language := get "language" in
      match (if truthy language
             then k <- to_key language ;; Ok (incr languages k 1)
             else Ok languages) with
      | Raise _ => (languages, interactions)
      | Ok languages' =>
          let i1 :=
            if truthy (get "in_reply_to_id") then incr interactions "replies" 1
            else interactions in
          let i2 :=
            if truthy (get "reblog") then incr i1 "reblogs" 1 else i1 in
          if truthy (get "favourites_count") then
            match num_add (Dict.get_default i2 "favorites" 0%Z)
                          (get "favourites_count") with
            | Ok total => (languages', Dict.set i2 "favorites" total)
            | Raise _ =>
                (languages',
                 Dict.set i2 "favorites" (Dict.get_default i2 "favorites" 0%Z))
            end
          else (languages', i2)
      end
  | _ => (languages, interactions)
  end.

(** [self.process_line(line)]: the returned flag and the analyzer after
    the call. *)
Definition process_line `{Runtime} (self : MastodonAnalyzer) (line : string)
  : bool * MastodonAnalyzer :=
  if strip line =? "" then (false, self)
  else
    match SrcSrc.MastodonData line with
    | Raise _ => (false, self)
    | Ok mastodon_data =>
        if negb (truthy (SrcSrc.created_at mastodon_data)) then (false, self)
        else
          let self1 := process_datetime mastodon_data self in
          match process_user mastodon_data (user_sentiment self1) with
          | Raise _ => (false, self1)
          | Ok users =>
              let '(languages, interactions) :=
                process_additional line (language_counts self1)
                  (interaction_counts self1) in
              (true,
               mkAnalyzer (hour_sentiment self1) (day_sentiment self1) users
                 languages (hourly_post_counts self1) interactions
                 (sentiment_values self1 ++ [SrcSrc.sentiment mastodon_data]))
          end
    end.

(** [analyze_chunk] and the reading loop of [analyze_mastodon_data] feed
    the lines of the rank to [process_line] in order. *)
Definition process_lines `{Runtime} (self : MastodonAnalyzer) (lines : list string)
  : MastodonAnalyzer :=
  fold_left (fun a line => snd (process_line a line)) lines self.

(** [self.analyze_chunk(lines)]: the number of lines [process_line]
    returned [True] for, and the analyzer after the chunk. *)
Definition analyze_chunk `{Runtime} (self : MastodonAnalyzer) (lines : list string)
  : nat * MastodonAnalyzer :=
  fold_left
    (fun (st : nat * MastodonAnalyzer) line =>
       let '(ok, self') := process_line (snd st) line in
       ((if ok then Datatypes.S (fst st) else fst st), self'))
    lines (0%nat, self).

(** The merge loop of [merge_results] over user entries. *)
Definition merge_user {K : Type} `{Key K}
    (merged proc_data : Dict.t K (value * Z * Z)) : Dict.t K (value * Z * Z) :=
  fold_left
    (fun acc '(user_id, (username, score, count)) =>
       match Dict.get acc user_id with
       | Some (_, existing_score, existing_count) =>
           Dict.set acc user_id
             (username, (existing_score + score)%Z, (existing_count + count)%Z)
       | None => Dict.set acc user_id (username, score, count)
       end)
    proc_data merged.

(** The same loop for scores of any type, [add] being their [+]. *)
Definition merge_user_add {K V : Type} `{Key K} (add : V -> V -> V)
    (merged proc_data : Dict.t K (value * V * Z)) : Dict.t K (value * V * Z) :=
  fold_left
    (fun acc '(user_id, (username, score, count)) =>
       match Dict.get acc user_id with
       | Some (_, existing_score, existing_count) =>
           Dict.set acc user_id
             (username, add existing_score score, (existing_count + count)%Z)
       | None => Dict.set acc user_id (username, score, count)
       end)
    proc_data merged.

(** One contribution merged into the running result, field by field:
    the hour, day, post count and interaction loops add per key, as
    [Counter.update] does for the languages; the sentiment values are
    extended. *)
Definition merge (merged proc : MastodonAnalyzer) : MastodonAnalyzer :=
  mkAnalyzer
    (SrcSrc.merge_sum (hour_sentiment merged) (hour_sentiment proc))
    (SrcSrc.merge_sum (day_sentiment merged) (day_sentiment proc))
    (merge_user (user_sentiment merged) (user_sentiment proc))
    (SrcSrc.merge_sum (language_counts merged) (language_counts proc))
    (SrcSrc.merge_sum (hourly_post_counts merged) (hourly_post_counts proc))
    (SrcSrc.merge_sum (interaction_counts merged) (interaction_counts proc))
    (sentiment_values merged ++ sentiment_values proc).

(** [merge_results] on the root: the gathered analyzers, in rank order,
    merged into empty accumulators. *)
Definition merge_results (gathered : list MastodonAnalyzer) : MastodonAnalyzer :=
  fold_left merge gathered init.

(** The lines of rank [comm_rank] in [analyze_mastodon_data]: the range of
    [main.py], [start_line] lines skipped, then lines taken while
    [i < end_line - start_line]. *)
Definition assigned_lines (file : list string) (comm_size comm_rank : nat)
  : list string :=
  let lines_per_process := (List.length file / comm_size)%nat in
  let start_line := (comm_rank * lines_per_process)%nat in
  let end_line :=
    if (comm_rank <? comm_size - 1)%nat then (start_line + lines_per_process)%nat
    else List.length file in
  firstn (end_line - start_line) (skipn start_line file).

(** [analyze_mastodon_data] up to the formatting: every rank processes
    its lines, and the root merges the gathered analyzers unless it is
    alone. *)
Definition analyze_mastodon_data `{Runtime} (file : list string)
    (comm_size : nat) : MastodonAnalyzer :=
  let analyzer rank := process_lines init (assigned_lines file comm_size rank) in
  if (comm_size =? 1)%nat then analyzer 0%nat
  else merge_results (map analyzer (seq 0 comm_size)).

Definition top_n : nat := 5.

(** The rankings of [_get_analysis_results]. *)
Definition happiest_hours (self : MastodonAnalyzer) :=
  Heapq.nlargest snd top_n (hour_sentiment self).
Definition saddest_hours (self : MastodonAnalyzer) :=
  Heapq.nsmallest snd top_n (hour_sentiment self).
Definition happiest_days (self : MastodonAnalyzer) :=
  Heapq.nlargest snd top_n (day_sentiment self).
Definition saddest_days (self : MastodonAnalyzer) :=
  Heapq.nsmallest snd top_n (day_sentiment self).
Definition happiest_users (self : MastodonAnalyzer) :=
  Heapq.nlargest (fun x : hkey * (value * Z * Z) => snd (fst (snd x))) top_n
    (user_sentiment self).
Definition saddest_users (self : MastodonAnalyzer) :=
  Heapq.nsmallest (fun x : hkey * (value * Z * Z) => snd (fst (snd x))) top_n
    (user_sentiment self).
Definition most_active_users (self : MastodonAnalyzer) :=
  Heapq.nlargest (fun x : hkey * (value * Z * Z) => snd (snd x)) top_n
    (user_sentiment self).

(** ** The chunks of [analyze_mastodon_data] *)

(** One turn of the reading loop over the lines of the rank: the line is
    appended to [current_chunk], and a chunk that has reached
    [chunk_size] lines goes to [analyze_chunk]. The state is
    [(lines_processed, current_chunk, analyzer)]. *)
Definition chunk_step `{Runtime} (chunk_size : nat)
    (st : nat * list string * MastodonAnalyzer) (line : string)
  : nat * list string * MastodonAnalyzer :=
  let '(lines_processed, current_chunk, self) := st in
  let current_chunk := current_chunk ++ [line] in
  if (chunk_size <=? List.length current_chunk)%nat then
    let '(processed, self') := analyze_chunk self current_chunk in
    ((lines_processed + processed)%nat, [], self')
  else (lines_processed, current_chunk, self).

(** The loop and the remaining lines after it: [lines_processed] and the
    analyzer of the rank. *)
Definition analyze_lines `{Runtime} (chunk_size : nat) (lines : list string)
    (self : MastodonAnalyzer) : nat * MastodonAnalyzer :=
  let '(lines_processed, current_chunk, self') :=
    fold_left (chunk_step chunk_size) lines (0%nat, [], self) in
  match current_chunk with
  | [] => (lines_processed, self')
  | _ :: _ =>
      let '(processed, self'') := analyze_chunk self' current_chunk in
      ((lines_processed + processed)%nat, self'')
  end.

(** ** The formatted results *)

(** What a call returns, or the [KeyError] of a subscript. *)
Inductive outcome (A : Type) : Type :=
| Returned (a : A)
| KeyError.
Arguments Returned {A} a.
Arguments KeyError {A}.

(** A comprehension [[f(x) for x in l]]: the first exception ends it. *)
Fixpoint comprehension {A B : Type} (f : A -> outcome B) (l : list A)
  : outcome (list B) :=
  match l with
  | [] => Returned []
  | x :: r =>
      match f x with
      | KeyError => KeyError
      | Returned y =>
          match comprehension f r with
          | KeyError => KeyError
          | Returned ys => Returned (y :: ys)
          end
      end
  end.

Section Results.
(** [S] is the type of the sentiment statistics and [F] the type of an
    average, both computed in floating point and copied as they are by
    [format_results]. *)
Context {S F : Type}.

(** The dictionary [_get_analysis_results] returns: its thirteen keys. *)
Record results : Type := mkResults {
  res_happiest_hours : list (string * Z);
  res_saddest_hours : list (string * Z);
  res_happiest_days : list (string * Z);
  res_saddest_days : list (string * Z);
  res_happiest_users : list (hkey * (value * Z * Z));
  res_saddest_users : list (hkey * (value * Z * Z));
  res_most_active_users : list (hkey * (value * Z * Z));
  res_top_languages : list (hkey * Z);
  res_busiest_hours : list (string * Z);
  res_sentiment_stats : S;
  res_interaction_stats : Dict.t string Z;
  res_most_positive_users : list (hkey * (value * F));
  res_most_negative_users : list (hkey * (value * F))
}.

(** The formatted results. An entry [{"hour": h, "sentiment": s}] is the
    pair [(h, s)], an entry [{"id": i, "username": u, "sentiment": s,
    "posts": p}] the tuple [(i, u, s, p)], and so on in the order of the
    keys. *)
Record formatted : Type := mkFormatted {
  fmt_happiest_hours : list (string * Z);
  fmt_saddest_hours : list (string * Z);
  fmt_happiest_days : list (string * Z);
  fmt_saddest_days : list (string * Z);
  fmt_happiest_users : list (hkey * value * Z * Z);
  fmt_saddest_users : list (hkey * value * Z * Z);
  fmt_most_active_users : list (hkey * value * Z * Z);
  fmt_top_languages : list (hkey * Z);
  fmt_busiest_hours : list (string * Z);
  fmt_sentiment_stats : S;
  fmt_interaction_stats : Dict.t string Z;
  fmt_most_positive_users : list (hkey * value * F * Z);
  fmt_most_negative_users : list (hkey * value * F * Z)
}.

(** [datetime.datetime.strptime(hour_str, "%Y-%m-%d %H")], [None] when it
    raises. *)
Variable strptime : string -> option datetime.

(** [self._format_hour_range(hour_str)]; [end_hour] is at most 24 and
    [{end_hour:02d}] writes it on two digits. *)
Definition _format_hour_range (hour_str : string) : string :=
  match strptime hour_str with
  | Some dt =>
      let end_hour := (hour dt + 1)%nat in
      strftime dt fmt_hour +++ ":00" +++ " to " +++ strftime dt fmt_day
        +++ " " +++ pad2 end_hour +++ ":00"
  | None => hour_str
  end.

(** [results["user_sentiment"]]: [results] has no such key. *)
Definition results_user_sentiment (r : results)
  : outcome (Dict.t hkey (value * Z * Z)) :=
  KeyError.

(** [results["user_sentiment"].get(user_id, (None, None, 0))[2]]. *)
Definition posts_of (r : results) (user_id : hkey) : outcome Z :=
  match results_user_sentiment r with
  | Returned user_sentiment =>
      Returned (match Dict.get user_sentiment user_id with
                | Some info => snd info
                | None => 0%Z
                end)
  | KeyError => KeyError
  end.

Definition format_hours (l : list (string * Z)) : list (string * Z) :=
  map (fun '(hour, score) => (_format_hour_range hour, score)) l.

(** [format_results(results)]: the entries are built in the order of the
    source, and the first exception leaves the function. *)
Definition format_results (r : results) : outcome formatted :=
  let happiest_hours := format_hours (res_happiest_hours r) in
  let saddest_hours := format_hours (res_saddest_hours r) in
  let happiest_days := map (fun '(day, score) => (day, score)) (res_happiest_days r) in
  let saddest_days := map (fun '(day, score) => (day, score)) (res_saddest_days r) in
  match comprehension
          (fun '(user_id, info) =>
             match posts_of r user_id with
             | Returned posts =>
                 Returned (user_id, fst (fst info), snd (fst info), posts)
             | KeyError => KeyError
             end) (res_happiest_users r) with
  | KeyError => KeyError
  | Returned happiest_users =>
  match comprehension
          (fun '(user_id, info) =>
             match posts_of r user_id with
             | Returned posts =>
                 Returned (user_id, fst (fst info), snd (fst info), posts)
             | KeyError => KeyError
             end) (res_saddest_users r) with
  | KeyError => KeyError
  | Returned saddest_users =>
  let most_active_users :=
    map (fun '(user_id, info) => (user_id, fst (fst info), snd info, snd (fst info)))
      (res_most_active_users r) in
  let top_languages := map (fun '(lang, count) => (lang, count)) (res_top_languages r) in
  let busiest_hours := format_hours (res_busiest_hours r) in
  match comprehension
          (fun '(user_id, info) =>
             match posts_of r user_id with
             | Returned posts => Returned (user_id, fst info, snd info, posts)
             | KeyError => KeyError
             end) (res_most_positive_users r) with
  | KeyError => KeyError
  | Returned most_positive_users =>
  match comprehension
          (fun '(user_id, info) =>
             match posts_of r user_id with
             | Returned posts => Returned (user_id, fst info, snd info, posts)
             | KeyError => KeyError
             end) (res_most_negative_users r) with
  | KeyError => KeyError
  | Returned most_negative_users =>
      Returned
        (mkFormatted happiest_hours saddest_hours happiest_days saddest_days
           happiest_users saddest_users most_active_users top_languages
           busiest_hours (res_sentiment_stats r) (res_interaction_stats r)
           most_positive_users most_negative_users)
  end end end end.
End Results.
Arguments results : clear implicits.
Arguments formatted : clear implicits.

End Analysis.

(* ================================================================== *)
(** * Sample input: the three lines of the end-to-end example and a few
      irregular lines, with a decoder that knows them *)
(* ================================================================== *)

Module Sample.

(** A double quote, and a quoted JSON string. *)
Definition dq : string := String (ascii_of_nat 34) EmptyString.
Definition q (s : string) : string := dq +++ s +++ dq.

Definition account_json (id name : string) : string :=
  q "account" +++ ":{" +++ q "id" +++ ":" +++ q id +++ ","
    +++ q "username" +++ ":" +++ q name +++ "}".

Definition account_obj (id name : string) : string * value :=
  ("account", VDict [("id", VStr id); ("username", VStr name)]).

(** [{"created_at":ts,"sentiment":s,"account":{"id":id,"username":name}}],
    the sentiment given as its JSON text. *)
Definition post_json (ts s id name : string) : string :=
  "{" +++ q "created_at" +++ ":" +++ q ts +++ "," +++ q "sentiment" +++ ":"
    +++ s +++ "," +++ account_json id name +++ "}".

Definition post_obj (ts : string) (s : value) (id name : string) : value :=
  VDict [("created_at", VStr ts); ("sentiment", s); account_obj id name].

Definition line1 : string := post_json "2023-03-15T14:05:00Z" "2" "u1" "alice".
Definition line2 : string := post_json "2023-03-15T14:45:00Z" "-1" "u1" "alice".
Definition line3 : string := post_json "2023-03-15T09:00:00Z" "5" "u2" "bob".
Definition obj1 : value := post_obj "2023-03-15T14:05:00Z" (VNum 2) "u1" "alice".
Definition obj2 : value := post_obj "2023-03-15T14:45:00Z" (VNum (-1)) "u1" "alice".
Definition obj3 : value := post_obj "2023-03-15T09:00:00Z" (VNum 5) "u2" "bob".

(** A post without [created_at]. *)
Definition line_no_date : string :=
  "{" +++ q "sentiment" +++ ":3," +++ account_json "u1" "alice" +++ "}".
Definition obj_no_date : value :=
  VDict [("sentiment", VNum 3); account_obj "u1" "alice"].

(** A post whose [created_at] is not a date. *)
Definition line_bad_date : string := post_json "yesterday" "3" "u1" "alice".
Definition obj_bad_date : value := post_obj "yesterday" (VNum 3) "u1" "alice".

(** Posts whose sentiment is [null], a word, or absent. *)
Definition line_null : string :=
  post_json "2023-03-15T14:05:00Z" "null" "u1" "alice".
Definition obj_null : value :=
  post_obj "2023-03-15T14:05:00Z" VNone "u1" "alice".
Definition line_word : string :=
  post_json "2023-03-15T14:05:00Z" (q "glad") "u1" "alice".
Definition obj_word : value :=
  post_obj "2023-03-15T14:05:00Z" (VStr "glad") "u1" "alice".
Definition line_no_sentiment : string :=
  "{" +++ q "created_at" +++ ":" +++ q "2023-03-15T14:05:00Z" +++ ","
    +++ account_json "u1" "alice" +++ "}".
Definition obj_no_sentiment : value :=
  VDict [("created_at", VStr "2023-03-15T14:05:00Z"); account_obj "u1" "alice"].

(** A line that is not JSON, and a blank one. *)
Definition line_garbage : string := "{" +++ q "created_at" +++ ": oops".
Definition line_blank : string := "   ".

(** Six posts in six hours, with the sentiments 0 to 5. *)
Definition post0 : string := post_json "2023-03-15T00:10:00Z" "0" "u1" "alice".
Definition post1 : string := post_json "2023-03-15T01:10:00Z" "1" "u1" "alice".
Definition post2 : string := post_json "2023-03-15T02:10:00Z" "2" "u1" "alice".
Definition post3 : string := post_json "2023-03-15T03:10:00Z" "3" "u2" "bob".
Definition post4 : string := post_json "2023-03-15T04:10:00Z" "4" "u2" "bob".
Definition post5 : string := post_json "2023-03-15T05:10:00Z" "5" "u2" "bob".
Definition six_posts : list string := [post0; post1; post2; post3; post4; post5].

Definition table : list (string * value) :=
  [(line1, obj1); (line2, obj2); (line3, obj3);
   (line_no_date, obj_no_date); (line_bad_date, obj_bad_date);
   (line_null, obj_null); (line_word, obj_word);
   (line_no_sentiment, obj_no_sentiment);
   (post0, post_obj "2023-03-15T00:10:00Z" (VNum 0) "u1" "alice");
   (post1, post_obj "2023-03-15T01:10:00Z" (VNum 1) "u1" "alice");
   (post2, post_obj "2023-03-15T02:10:00Z" (VNum 2) "u1" "alice");
   (post3, post_obj "2023-03-15T03:10:00Z" (VNum 3) "u2" "bob");
   (post4, post_obj "2023-03-15T04:10:00Z" (VNum 4) "u2" "bob");
   (post5, post_obj "2023-03-15T05:10:00Z" (VNum 5) "u2" "bob")].

Definition dates : list (string * datetime) :=
  [("2023-03-15T14:05:00+00:00", mkdatetime 2023 3 15 14 5 0);
   ("2023-03-15T14:45:00+00:00", mkdatetime 2023 3 15 14 45 0);
   ("2023-03-15T09:00:00+00:00", mkdatetime 2023 3 15 9 0 0);
   ("2023-03-15T00:10:00+00:00", mkdatetime 2023 3 15 0 10 0);
   ("2023-03-15T01:10:00+00:00", mkdatetime 2023 3 15 1 10 0);
   ("2023-03-15T02:10:00+00:00", mkdatetime 2023 3 15 2 10 0);
   ("2023-03-15T03:10:00+00:00", mkdatetime 2023 3 15 3 10 0);
   ("2023-03-15T04:10:00+00:00", mkdatetime 2023 3 15 4 10 0);
   ("2023-03-15T05:10:00+00:00", mkdatetime 2023 3 15 5 10 0)].

(** The decoders restricted to the sample: every other line is rejected
    as malformed, every other date as unparseable, every string as not a
    number. *)
Definition runtime : Runtime :=
  {| json_loads := fun s => Dict.get table s;
     fromisoformat := fun s => Dict.get dates s;
     float_of_str := fun _ => None;
     strip := ascii_strip |}.

(** Partial results: three workers with one line of the example each. *)
Definition part1 : Analysis.MastodonAnalyzer :=
  @Analysis.process_lines runtime Analysis.init [line1].
Definition part2 : Analysis.MastodonAnalyzer :=
  @Analysis.process_lines runtime Analysis.init [line2].
Definition part3 : Analysis.MastodonAnalyzer :=
  @Analysis.process_lines runtime Analysis.init [line3].

Definition users1 : SrcSrc.user_dict :=
  snd (@SrcSrc.map_phase runtime [line1] 1 0).
Definition users2 : SrcSrc.user_dict :=
  snd (@SrcSrc.map_phase runtime [line2] 1 0).
Definition users3 : SrcSrc.user_dict :=
  snd (@SrcSrc.map_phase runtime [line3] 1 0).

(** Two workers that saw the account [u1] under two usernames. *)
Definition users_alice : SrcSrc.user_dict := [(KStr "u1", (VStr "alice", 1%Z))].
Definition users_alicia : SrcSrc.user_dict := [(KStr "u1", (VStr "alicia", 2%Z))].


(** Six hours with the scores 0 to 5, as the root holds them after the
    merge, and the local lists of two ranks over its two halves. *)
Definition six_hours : list (string * Z) :=
  [("2023-03-15 00", 0%Z); ("2023-03-15 01", 1%Z); ("2023-03-15 02", 2%Z);
   ("2023-03-15 03", 3%Z); ("2023-03-15 04", 4%Z); ("2023-03-15 05", 5%Z)].
Definition low_half : list (string * Z) :=
  [("2023-03-15 00", 0%Z); ("2023-03-15 01", 1%Z); ("2023-03-15 02", 2%Z)].
Definition high_half : list (string * Z) :=
  [("2023-03-15 03", 3%Z); ("2023-03-15 04", 4%Z); ("2023-03-15 05", 5%Z)].

(** Irregular records: an account that is [null], a line that is a JSON
    array, and a user id that is a list. *)
Definition line_null_account : string :=
  "{" +++ q "created_at" +++ ":" +++ q "2023-03-15T14:05:00Z" +++ ","
    +++ q "sentiment" +++ ":2," +++ q "account" +++ ":null}".
Definition obj_null_account : value :=
  VDict [("created_at", VStr "2023-03-15T14:05:00Z"); ("sentiment", VNum 2);
         ("account", VNone)].
Definition line_array : string := "[1,2]".
Definition obj_array : value := VList [VNum 1; VNum 2].
Definition line_list_id : string :=
  "{" +++ q "created_at" +++ ":" +++ q "2023-03-15T14:05:00Z" +++ ","
    +++ q "sentiment" +++ ":2," +++ q "account" +++ ":{" +++ q "id" +++ ":[7],"
    +++ q "username" +++ ":" +++ q "eve" +++ "}}".
Definition obj_list_id : value :=
  VDict [("created_at", VStr "2023-03-15T14:05:00Z"); ("sentiment", VNum 2);
         ("account", VDict [("id", VList [VNum 7]); ("username", VStr "eve")])].

(** The decoders of the sample, reading the irregular records too. *)
Definition irregular_runtime : Runtime :=
  {| json_loads := fun s =>
       Dict.get (table ++ [(line_null_account, obj_null_account);
                           (line_array, obj_array);
                           (line_list_id, obj_list_id)]) s;
     fromisoformat := fun s => Dict.get dates s;
     float_of_str := fun _ => None;
     strip := ascii_strip |}.

(** A line that [json.loads] rejects as read and accepts once stripped:
    the first line of the example after a form feed. *)
Definition line_form_feed : string := String (ascii_of_nat 12) line1.


(** Three partial hour sums of one hour, the floats 0.1, 0.2 and 0.3. *)
Definition tenths (n : Z) : Dict.t string float :=
  [("2023-03-15 14", float_of_ratio n 10)].

End Sample.

(* ================================================================== *)
(** * Notions used to state the properties *)
(* ================================================================== *)

Module Spec.

(** The value a key holds after a merge, from what the two sides hold. *)
Definition opt_merge {V : Type} (f : V -> V -> V) (x y : option V) : option V :=
  match x, y with
  | Some u, Some v => Some (f u v)
  | Some u, None => Some u
  | None, Some v => Some v
  | None, None => None
  end.

(** The shape shared by the merge loops: a key of the contribution is
    combined with the value already present, or inserted. *)
Definition merge_with {K V : Type} `{Key K} (f : V -> V -> V)
    (merged proc_data : Dict.t K V) : Dict.t K V :=
  fold_left
    (fun acc '(k, v) =>
       match Dict.get acc k with
       | Some e => Dict.set acc k (f e v)
       | None => Dict.set acc k v
       end)
    proc_data merged.

(** What a collision does to a user entry of [main.py] and of
    [analysis.py]: the sums add up, the username of the right side stays. *)
Definition join2 (x y : value * Z) : value * Z :=
  (fst y, (snd x + snd y)%Z).
Definition join3 (x y : value * Z * Z) : value * Z * Z :=
  (fst (fst y), (snd (fst x) + snd (fst y))%Z, (snd x + snd y)%Z).

(** The same for scores of any type. *)
Definition join2_with {V : Type} (add : V -> V -> V) (x y : value * V)
  : value * V :=
  (fst y, add (snd x) (snd y)).
Definition join3_with {V : Type} (add : V -> V -> V) (x y : value * V * Z)
  : value * V * Z :=
  (fst (fst y), add (snd (fst x)) (snd (fst y)), (snd x + snd y)%Z).

(** The two sides name every user they share alike. *)
Definition same_names {K V : Type} `{Key K} (name : V -> value)
    (a b : Dict.t K V) : Prop :=
  forall k x y, Dict.get a k = Some x -> Dict.get b k = Some y -> name x = name y.

(** Equality of user dictionaries but for the usernames. *)
Definition equiv_sums {K V S : Type} `{Key K} (sums : V -> S)
    (a b : Dict.t K V) : Prop :=
  forall k, option_map sums (Dict.get a k) = option_map sums (Dict.get b k).

(** Every dictionary of the analyzer holds each key once. *)
Definition analyzer_wf (a : Analysis.MastodonAnalyzer) : Prop :=
  Dict.wf (Analysis.hour_sentiment a) /\ Dict.wf (Analysis.day_sentiment a)
  /\ Dict.wf (Analysis.user_sentiment a) /\ Dict.wf (Analysis.language_counts a)
  /\ Dict.wf (Analysis.hourly_post_counts a)
  /\ Dict.wf (Analysis.interaction_counts a).

(** Two analyzers hold the same partial result: equal dictionaries, the
    user dictionaries related by [users], and the same sentiment values
    whatever their order. *)
Definition analyzer_equiv
    (users : Dict.t hkey (value * Z * Z) -> Dict.t hkey (value * Z * Z) -> Prop)
    (a b : Analysis.MastodonAnalyzer) : Prop :=
  Dict.equiv (Analysis.hour_sentiment a) (Analysis.hour_sentiment b)
  /\ Dict.equiv (Analysis.day_sentiment a) (Analysis.day_sentiment b)
  /\ users (Analysis.user_sentiment a) (Analysis.user_sentiment b)
  /\ Dict.equiv (Analysis.language_counts a) (Analysis.language_counts b)
  /\ Dict.equiv (Analysis.hourly_post_counts a) (Analysis.hourly_post_counts b)
  /\ Dict.equiv (Analysis.interaction_counts a) (Analysis.interaction_counts b)
  /\ Permutation (Analysis.sentiment_values a) (Analysis.sentiment_values b).

(** The sums of a user entry: the score, or the score and the count. *)
Definition sums3 (x : value * Z * Z) : Z * Z := (snd (fst x), snd x).
Definition name3 (x : value * Z * Z) : value := fst (fst x).



(** A ranking by decreasing score, and the items of a given score. *)
Definition descending {A : Type} (key : A -> Z) (l : list A) : Prop :=
  StronglySorted (fun a b => (key b <= key a)%Z) l.
Definition ascending {A : Type} (key : A -> Z) (l : list A) : Prop :=
  StronglySorted (fun a b => (key a <= key b)%Z) l.


(** What the key [k] gathers from a list of items that may name it
    several times, the values combined from left to right. *)
Fixpoint gathered {K V : Type} `{Key K} (f : V -> V -> V) (k : K)
    (items : list (K * V)) : option V :=
  match items with
  | [] => None
  | (k', v) :: r =>
      if keqb k' k then opt_merge f (Some v) (gathered f k r)
      else gathered f k r
  end.






(** The record [MastodonAnalyzer.process_line] lets through its guards:
    none for a blank line, a line that does not decode, and a record
    without [created_at]. *)
Definition dated `{Runtime} (line : string) : option SrcSrc.MastodonData_obj :=
  if strip line =? "" then None
  else match SrcSrc.MastodonData line with
       | Ok md => if truthy (SrcSrc.created_at md) then Some md else None
       | Raise _ => None
       end.

(** The key of its user: none without a user id, a [TypeError] for an id
    that cannot be hashed. *)
Definition user_key (md : SrcSrc.MastodonData_obj) : result (option hkey) :=
  if truthy (SrcSrc.user_id md)
  then uid <- to_key (SrcSrc.user_id md) ;; Ok (Some uid)
  else Ok None.

(** The record [process_line] counts, the one it returns [True] for. *)
Definition counted `{Runtime} (line : string) : option SrcSrc.MastodonData_obj :=
  match dated line with
  | Some md => match user_key md with Ok _ => Some md | Raise _ => None end
  | None => None
  end.

(** The items a line adds to each accumulator of the analyzer. *)
Definition date_items `{Runtime} (fmt : format) (amount : SrcSrc.MastodonData_obj -> Z)
    (line : string) : list (string * Z) :=
  match dated line with
  | Some md =>
      match SrcSrc.created_datetime_of (SrcSrc.created_at md) with
      | Ok dt => [(strftime dt fmt, amount md)]
      | Raise _ => []
      end
  | None => []
  end.

Definition analyzer_user_items `{Runtime} (line : string)
  : list (hkey * (value * Z * Z)) :=
  match dated line with
  | Some md =>
      match user_key md with
      | Ok (Some uid) => [(uid, (SrcSrc.username md, SrcSrc.sentiment md, 1%Z))]
      | _ => []
      end
  | None => []
  end.

Definition value_items `{Runtime} (line : string) : list Z :=
  match counted line with Some md => [SrcSrc.sentiment md] | None => [] end.

(** The language and the interactions read from the raw JSON: nothing
    when the language cannot be hashed, the block ending there; a
    [favourites_count] that is not a number leaves the key with nothing
    added. *)
Definition additional_items `{Runtime} (line : string)
  : list (hkey * Z) * list (string * Z) :=
  match counted line, json_loads line with
  | Some _, Some (VDict json_data) =>
      let get k := match assoc k json_data with Some v => v | None => VNone end in
      let interactions :=
        (if truthy (get "in_reply_to_id") then [("replies", 1%Z)] else [])
        ++ (if truthy (get "reblog") then [("reblogs", 1%Z)] else [])
        ++ (if truthy (get "favourites_count") then
              match get "favourites_count" with
              | VNum z => [("favorites", z)]
              | _ => [("favorites", 0%Z)]
              end
            else []) in
      if truthy (get "language") then
        match to_key (get "language") with
        | Ok k => ([(k, 1%Z)], interactions)
        | Raise _ => ([], [])
        end
      else ([], interactions)
  | _, _ => ([], [])
  end.

(** The analyzer after a list of lines, accumulator by accumulator. *)
Definition absorbed `{Runtime} (self : Analysis.MastodonAnalyzer)
    (lines : list string) : Analysis.MastodonAnalyzer :=
  Analysis.mkAnalyzer
    (merge_with Z.add (Analysis.hour_sentiment self)
       (flat_map (date_items fmt_hour SrcSrc.sentiment) lines))
    (merge_with Z.add (Analysis.day_sentiment self)
       (flat_map (date_items fmt_day SrcSrc.sentiment) lines))
    (merge_with join3 (Analysis.user_sentiment self)
       (flat_map analyzer_user_items lines))
    (merge_with Z.add (Analysis.language_counts self)
       (flat_map (fun line => fst (additional_items line)) lines))
    (merge_with Z.add (Analysis.hourly_post_counts self)
       (flat_map (date_items fmt_hour (fun _ => 1%Z)) lines))
    (merge_with Z.add (Analysis.interaction_counts self)
       (flat_map (fun line => snd (additional_items line)) lines))
    (Analysis.sentiment_values self ++ flat_map value_items lines).

(** [top] holds the [n] items of largest score of [l] (all of them when
    [l] has fewer): items of [l], ranked by decreasing score, and no item
    left out has a larger score than an item selected. *)
Definition top_of {A : Type} (key : A -> Z) (n : nat) (l top : list A) : Prop :=
  List.length top = Nat.min n (List.length l)
  /\ incl top l
  /\ descending key top
  /\ forall x y, In x top -> In y l -> ~ In y top -> (key y <= key x)%Z.

(** Whether a key is among [ks], and the keys in the order they are seen
    first: those of [ks], then the new ones of [new]. *)
Definition seen {K : Type} `{Key K} (ks : list K) (k : K) : bool :=
  existsb (fun k' => keqb k' k) ks.
Definition first_seen {K : Type} `{Key K} (ks new : list K) : list K :=
  fold_left (fun acc k => if seen acc k then acc else acc ++ [k]) new ks.

(** The grand total of a dictionary or of a list of items, each value
    counted for [amount], and the sum of a list of numbers. *)
Definition total {K V : Type} (amount : V -> Z) (d : list (K * V)) : Z :=
  fold_right (fun kv acc => (amount (snd kv) + acc)%Z) 0%Z d.
Definition sum_values (l : list Z) : Z := fold_right Z.add 0%Z l.

(** A file without the two irregular records: every record that passes
    the guards of [process_line] has a time stamp that parses and a user
    id that can be hashed. *)
Definition regular `{Runtime} (lines : list string) : Prop :=
  forall line md,
    In line lines -> dated line = Some md ->
    (exists dt, SrcSrc.created_datetime_of (SrcSrc.created_at md) = Ok dt)
    /\ (exists k, user_key md = Ok k).

(** A decoded JSON value [MastodonData] can read: an object whose
    [account], when the key is present, is an object too. *)
Definition readable (json_data : value) : bool :=
  match json_data with
  | VDict d =>
      match assoc "account" d with
      | Some (VDict _) | None => true
      | Some _ => false
      end
  | _ => false
  end.






End Spec.

(* ================================================================== *)
(** * Properties *)
(* ================================================================== *)

(** ** Dictionaries *)

#[export] Instance string_KeyLaws : KeyLaws string.
Proof. constructor. intros a b. apply String.eqb_eq. Qed.

#[export] Instance hkey_KeyLaws : KeyLaws Py.hkey.
Proof.
  constructor. intros a b.
  destruct a, b; simpl; split; intro E; try discriminate; try reflexivity.
  - apply Z.eqb_eq in E. now subst.
  - inversion E. apply Z.eqb_refl.
  - apply String.eqb_eq in E. now subst.
  - inversion E. apply String.eqb_refl.
Qed.

Section DictFacts.
Context {K V : Type} `{KeyLaws K}.
Implicit Types (d : Dict.t K V) (k : K) (v : V).

Lemma keqb_refl k : keqb k k = true.
Proof. now apply keqb_eq. Qed.

Lemma keqb_neq k k' : k <> k' -> keqb k k' = false.
Proof.
  intro N. destruct (keqb k k') eqn:E; [|reflexivity].
  apply keqb_eq in E. contradiction.
Qed.

Lemma key_dec k k' : {k = k'} + {k <> k'}.
Proof.
  destruct (keqb k k') eqn:E.
  - left. now apply keqb_eq.
  - right. intro Q. apply keqb_eq in Q. congruence.
Qed.

Lemma get_set_same d k v : Dict.get (Dict.set d k v) k = Some v.
Proof.
  induction d as [|[k' v'] r IH]; simpl.
  - now rewrite keqb_refl.
  - destruct (keqb k' k) eqn:E; simpl; rewrite E; auto.
Qed.

Lemma get_set_other d k k' v :
  k <> k' -> Dict.get (Dict.set d k v) k' = Dict.get d k'.
Proof.
  intro N. induction d as [|[k0 v0] r IH]; simpl.
  - now rewrite keqb_neq.
  - destruct (keqb k0 k) eqn:E; simpl.
    + apply keqb_eq in E. subst k0. now rewrite keqb_neq.
    + now rewrite IH.
Qed.

Lemma get_None_keys d k : Dict.get d k = None <-> ~ In k (Dict.keys d).
Proof.
  induction d as [|[k0 v0] r IH]; simpl.
  - tauto.
  - destruct (keqb k0 k) eqn:E.
    + apply keqb_eq in E. split; [discriminate | tauto].
    + assert (k0 <> k) by (intro Q; apply keqb_eq in Q; congruence). tauto.
Qed.

Lemma keys_set d k v :
  Dict.keys (Dict.set d k v)
  = if Dict.contains d k then Dict.keys d else Dict.keys d ++ [k].
Proof.
  unfold Dict.contains. induction d as [|[k0 v0] r IH]; simpl.
  - reflexivity.
  - destruct (keqb k0 k) eqn:E; simpl.
    + reflexivity.
    + rewrite IH. now destruct (Dict.get r k).
Qed.

Lemma wf_set d k v : Dict.wf d -> Dict.wf (Dict.set d k v).
Proof.
  unfold Dict.wf. intro W. rewrite keys_set. unfold Dict.contains.
  destruct (Dict.get d k) eqn:G; [assumption|].
  apply get_None_keys in G.
  apply NoDup_rev in W. rewrite <- (rev_involutive (_ ++ _)).
  apply NoDup_rev. rewrite rev_app_distr. simpl. constructor; [|assumption].
  now rewrite <- in_rev.
Qed.
End DictFacts.

(** ** The merge loops *)

Section MergeFacts.
Context {K V : Type} `{KeyLaws K}.
Variable f : V -> V -> V.
Implicit Types (a b c : Dict.t K V) (k : K).

Lemma wf_merge_with a b : Dict.wf a -> Dict.wf (Spec.merge_with f a b).
Proof.
  unfold Spec.merge_with. revert a.
  induction b as [|[k v] r IH]; intros a W; simpl; [assumption|].
  apply IH. destruct (Dict.get a k); now apply wf_set.
Qed.

Lemma get_merge_with a b k :
  Dict.wf b ->
  Dict.get (Spec.merge_with f a b) k
  = Spec.opt_merge f (Dict.get a k) (Dict.get b k).
Proof.
  unfold Spec.merge_with. revert a.
  induction b as [|[k0 v0] r IH]; intros a W; simpl.
  - now destruct (Dict.get a k).
  - inversion W as [|? ? Hnin Hr]; subst.
    rewrite (IH _ Hr). destruct (key_dec k0 k) as [->|N].
    + rewrite keqb_refl.
      assert (G : Dict.get r k = None) by now apply get_None_keys.
      rewrite G. destruct (Dict.get a k); now rewrite get_set_same.
    + rewrite (keqb_neq _ _ N).
      destruct (Dict.get a k0); now rewrite get_set_other.
Qed.

Lemma merge_with_assoc a b c :
  (forall x y z, f (f x y) z = f x (f y z)) ->
  Dict.wf b -> Dict.wf c ->
  Dict.equiv (Spec.merge_with f (Spec.merge_with f a b) c)
             (Spec.merge_with f a (Spec.merge_with f b c)).
Proof.
  intros A Wb Wc k.
  rewrite !get_merge_with by auto using wf_merge_with.
  destruct (Dict.get a k), (Dict.get b k), (Dict.get c k); simpl;
    now rewrite ?A.
Qed.

Lemma merge_with_comm a b :
  (forall k x y, Dict.get a k = Some x -> Dict.get b k = Some y ->
                 f x y = f y x) ->
  Dict.wf a -> Dict.wf b ->
  Dict.equiv (Spec.merge_with f a b) (Spec.merge_with f b a).
Proof.
  intros C Wa Wb k. rewrite !get_merge_with by assumption.
  destruct (Dict.get a k) eqn:Ga, (Dict.get b k) eqn:Gb; simpl; try reflexivity.
  f_equal. eauto.
Qed.
End MergeFacts.

Section MergeLoops.
Context {K : Type} `{KeyLaws K}.

Lemma fold_left_ext {A B : Type} (g h : A -> B -> A) (l : list B) (a : A) :
  (forall x y, g x y = h x y) -> fold_left g l a = fold_left h l a.
Proof.
  intro E. revert a. induction l as [|y l IH]; intro a; simpl; [reflexivity|].
  now rewrite E, IH.
Qed.

Lemma merge_sum_with (a b : Dict.t K Z) :
  SrcSrc.merge_sum a b = Spec.merge_with Z.add a b.
Proof.
  unfold SrcSrc.merge_sum, Spec.merge_with. apply fold_left_ext.
  intros acc [k s]. unfold Dict.get_default. now destruct (Dict.get acc k).
Qed.

Lemma merge_user_with (a b : Dict.t K (value * Z)) :
  SrcSrc.merge_user a b = Spec.merge_with Spec.join2 a b.
Proof.
  unfold SrcSrc.merge_user, Spec.merge_with. apply fold_left_ext.
  intros acc [k [u s]]. now destruct (Dict.get acc k) as [[u' s']|].
Qed.

Lemma merge_user3_with (a b : Dict.t K (value * Z * Z)) :
  Analysis.merge_user a b = Spec.merge_with Spec.join3 a b.
Proof.
  unfold Analysis.merge_user, Spec.merge_with. apply fold_left_ext.
  intros acc [k [[u s] n]]. now destruct (Dict.get acc k) as [[[u' s'] n']|].
Qed.


Lemma join3_assoc x y z :
  Spec.join3 (Spec.join3 x y) z = Spec.join3 x (Spec.join3 y z).
Proof. unfold Spec.join3. simpl. f_equal; [f_equal|]; lia. Qed.
End MergeLoops.

Section MergeLaws.
Context {K : Type} `{KeyLaws K}.

Lemma merge_sum_assoc (a b c : Dict.t K Z) :
  Dict.wf b -> Dict.wf c ->
  Dict.equiv (SrcSrc.merge_sum (SrcSrc.merge_sum a b) c)
             (SrcSrc.merge_sum a (SrcSrc.merge_sum b c)).
Proof.
  intros. rewrite !merge_sum_with.
  apply merge_with_assoc; auto. intros; lia.
Qed.

Lemma merge_sum_comm (a b : Dict.t K Z) :
  Dict.wf a -> Dict.wf b ->
  Dict.equiv (SrcSrc.merge_sum a b) (SrcSrc.merge_sum b a).
Proof.
  intros. rewrite !merge_sum_with.
  apply merge_with_comm; auto. intros; lia.
Qed.

Lemma wf_merge_sum (a b : Dict.t K Z) :
  Dict.wf a -> Dict.wf (SrcSrc.merge_sum a b).
Proof. rewrite merge_sum_with. apply wf_merge_with. Qed.

Lemma merge_with_comm_sums {V S : Type} (f : V -> V -> V) (sums : V -> S)
    (a b : Dict.t K V) :
  (forall x y, sums (f x y) = sums (f y x)) ->
  Dict.wf a -> Dict.wf b ->
  Spec.equiv_sums sums (Spec.merge_with f a b) (Spec.merge_with f b a).
Proof.
  intros C Wa Wb k. rewrite !get_merge_with by assumption.
  destruct (Dict.get a k), (Dict.get b k); simpl; try reflexivity.
  now rewrite C.
Qed.
End MergeLaws.

Section MergeAdd.
Context {K V : Type} `{KeyLaws K}.
Variable add : V -> V -> V.
Variable zero : V.

Lemma wf_merge_add (a b : Dict.t K V) :
  Dict.wf a -> Dict.wf (SrcSrc.merge_add add zero a b).
Proof.
  unfold SrcSrc.merge_add. revert a.
  induction b as [|[k v] r IH]; intros a W; cbn [fold_left]; [assumption|].
  apply IH. now apply wf_set.
Qed.

(** The merge of a contribution: the union of the keys, and under a key
    of the contribution its value added to the one already there, or to
    the default. *)
Lemma get_merge_add (a b : Dict.t K V) (k : K) :
  Dict.wf b ->
  Dict.get (SrcSrc.merge_add add zero a b) k
  = match Dict.get b k with
    | Some y => Some (add (Dict.get_default a k zero) y)
    | None => Dict.get a k
    end.
Proof.
  unfold SrcSrc.merge_add. revert a.
  induction b as [|[k0 v0] r IH]; intros a W; cbn [fold_left Dict.get];
    [reflexivity|].
  inversion W as [|? ? Hnin Wr]; subst. rewrite (IH _ Wr).
  destruct (key_dec k0 k) as [->|N].
  - rewrite keqb_refl.
    assert (G : Dict.get r k = None) by now apply get_None_keys.
    rewrite G. now rewrite get_set_same.
  - rewrite (keqb_neq _ _ N). unfold Dict.get_default.
    now rewrite (get_set_other _ _ _ _ N).
Qed.

Lemma merge_user_add_with (a b : Dict.t K (value * V)) :
  SrcSrc.merge_user_add add a b = Spec.merge_with (Spec.join2_with add) a b.
Proof.
  unfold SrcSrc.merge_user_add, Spec.merge_with. apply fold_left_ext.
  intros acc [k [u s]]. now destruct (Dict.get acc k) as [[u' s']|].
Qed.

Lemma merge_user3_add_with (a b : Dict.t K (value * V * Z)) :
  Analysis.merge_user_add add a b = Spec.merge_with (Spec.join3_with add) a b.
Proof.
  unfold Analysis.merge_user_add, Spec.merge_with. apply fold_left_ext.
  intros acc [k [[u s] n]]. now destruct (Dict.get acc k) as [[[u' s'] n']|].
Qed.

Lemma merge_add_assoc (a b c : Dict.t K V) :
  (forall x y z, add (add x y) z = add x (add y z)) ->
  (forall x, add zero x = x) ->
  Dict.wf b -> Dict.wf c ->
  Dict.equiv (SrcSrc.merge_add add zero (SrcSrc.merge_add add zero a b) c)
             (SrcSrc.merge_add add zero a (SrcSrc.merge_add add zero b c)).
Proof.
  intros A N Wb Wc k.
  rewrite (get_merge_add _ c k Wc), (get_merge_add a _ k (wf_merge_add b c Wb)).
  rewrite (get_merge_add b c k Wc). unfold Dict.get_default.
  rewrite (get_merge_add a b k Wb). unfold Dict.get_default.
  destruct (Dict.get a k), (Dict.get b k), (Dict.get c k);
    rewrite ?A, ?N; reflexivity.
Qed.

Lemma merge_add_comm (a b : Dict.t K V) :
  (forall x y, add x y = add y x) ->
  (forall x, add zero x = x) ->
  Dict.wf a -> Dict.wf b ->
  Dict.equiv (SrcSrc.merge_add add zero a b) (SrcSrc.merge_add add zero b a).
Proof.
  intros C N Wa Wb k.
  rewrite (get_merge_add a b k Wb), (get_merge_add b a k Wa).
  unfold Dict.get_default.
  destruct (Dict.get a k), (Dict.get b k); rewrite ?N; try reflexivity.
  now rewrite C.
Qed.
End MergeAdd.

(** Closes [Dict.wf] and [Spec.analyzer_wf] goals on explicit dictionaries. *)
Ltac wf_explicit :=
  unfold Spec.analyzer_wf, Dict.wf; vm_compute;
  repeat match goal with
         | |- _ /\ _ => split
         | |- NoDup _ => constructor
         | |- ~ _ => let E := fresh in intro E; simpl in E; intuition discriminate
         end.

(** C3, as the code has it. The merge of two partial results is defined
    field by field by the loops of the root: for the hour, day and count
    dictionaries the union of the keys, the value of a contribution
    added to the one already there; for the user dictionaries the union
    of the keys, on a collision the scores (and post counts) added and
    the username of the contribution kept. The loops are taken for an
    arbitrary addition [add] with default [zero]: the addition of
    integers for the counts, the addition of doubles for the sums.
    - The merge is associative when [add] is associative and [zero] is
      neutral on the left, the usernames included.
    - It is commutative on the hour, day and count dictionaries when
      [add] is commutative and [zero] neutral on the left, and then on
      the sums of the user entries; on the user dictionaries in full
      when moreover the two sides name every shared user alike.
    - On the integer counts and on the sentiment values of [analysis.py]
      the laws hold as they are. *)
Theorem merge_associative_commutative_but_username
    {V : Type} (add : V -> V -> V) (zero : V)
    (a b c : Dict.t string V)
    (ua ub uc : Dict.t hkey (value * V))
    (va vb vc : Dict.t hkey (value * V * Z))
    (ra rb rc : Analysis.MastodonAnalyzer) :
  Dict.wf a -> Dict.wf b -> Dict.wf c ->
  Dict.wf ua -> Dict.wf ub -> Dict.wf uc ->
  Dict.wf va -> Dict.wf vb -> Dict.wf vc ->
  Spec.analyzer_wf ra -> Spec.analyzer_wf rb -> Spec.analyzer_wf rc ->
  (* what the merge computes *)
  ((forall k,
      Dict.get (SrcSrc.merge_add add zero a b) k
      = match Dict.get b k with
        | Some y => Some (add (Dict.get_default a k zero) y)
        | None => Dict.get a k
        end)
   /\ (forall k,
        Dict.get (SrcSrc.merge_user_add add ua ub) k
        = Spec.opt_merge (fun x y => (fst y, add (snd x) (snd y)))
            (Dict.get ua k) (Dict.get ub k))
   /\ (forall k,
        Dict.get (Analysis.merge_user_add add va vb) k
        = Spec.opt_merge
            (fun x y => (fst (fst y), add (snd (fst x)) (snd (fst y)),
                         (snd x + snd y)%Z))
            (Dict.get va k) (Dict.get vb k))
   /\ (forall x y : Dict.t string Z,
        SrcSrc.merge_sum x y = SrcSrc.merge_add Z.add 0%Z x y)
   /\ (forall x y : Dict.t hkey (value * Z),
        SrcSrc.merge_user x y = SrcSrc.merge_user_add Z.add x y)
   /\ Analysis.merge ra rb
      = Analysis.mkAnalyzer
          (SrcSrc.merge_add Z.add 0%Z
             (Analysis.hour_sentiment ra) (Analysis.hour_sentiment rb))
          (SrcSrc.merge_add Z.add 0%Z
             (Analysis.day_sentiment ra) (Analysis.day_sentiment rb))
          (Analysis.merge_user_add Z.add
             (Analysis.user_sentiment ra) (Analysis.user_sentiment rb))
          (SrcSrc.merge_add Z.add 0%Z
             (Analysis.language_counts ra) (Analysis.language_counts rb))
          (SrcSrc.merge_add Z.add 0%Z
             (Analysis.hourly_post_counts ra) (Analysis.hourly_post_counts rb))
          (SrcSrc.merge_add Z.add 0%Z
             (Analysis.interaction_counts ra) (Analysis.interaction_counts rb))
          (Analysis.sentiment_values ra ++ Analysis.sentiment_values rb))
  (* associativity *)
  /\ ((forall x y z, add (add x y) z = add x (add y z)) ->
      ((forall x, add zero x = x) ->
       Dict.equiv (SrcSrc.merge_add add zero (SrcSrc.merge_add add zero a b) c)
                  (SrcSrc.merge_add add zero a (SrcSrc.merge_add add zero b c)))
      /\ Dict.equiv
           (SrcSrc.merge_user_add add (SrcSrc.merge_user_add add ua ub) uc)
           (SrcSrc.merge_user_add add ua (SrcSrc.merge_user_add add ub uc))
      /\ Dict.equiv
           (Analysis.merge_user_add add (Analysis.merge_user_add add va vb) vc)
           (Analysis.merge_user_add add va (Analysis.merge_user_add add vb vc)))
  (* commutativity *)
  /\ ((forall x y, add x y = add y x) ->
      ((forall x, add zero x = x) ->
       Dict.equiv (SrcSrc.merge_add add zero a b) (SrcSrc.merge_add add zero b a))
      /\ Spec.equiv_sums snd (SrcSrc.merge_user_add add ua ub)
           (SrcSrc.merge_user_add add ub ua)
      /\ Spec.equiv_sums (fun x : value * V * Z => (snd (fst x), snd x))
           (Analysis.merge_user_add add va vb) (Analysis.merge_user_add add vb va)
      /\ (Spec.same_names fst ua ub ->
          Dict.equiv (SrcSrc.merge_user_add add ua ub)
                     (SrcSrc.merge_user_add add ub ua))
      /\ (Spec.same_names (fun x : value * V * Z => fst (fst x)) va vb ->
          Dict.equiv (Analysis.merge_user_add add va vb)
                     (Analysis.merge_user_add add vb va)))
  (* the integer counts and the sentiment values *)
  /\ (let counts r := (Analysis.language_counts r, Analysis.hourly_post_counts r,
                       Analysis.interaction_counts r) in
      let same (x y : Dict.t hkey Z * Dict.t string Z * Dict.t string Z) :=
        Dict.equiv (fst (fst x)) (fst (fst y))
        /\ Dict.equiv (snd (fst x)) (snd (fst y))
        /\ Dict.equiv (snd x) (snd y) in
      same (counts (Analysis.merge (Analysis.merge ra rb) rc))
           (counts (Analysis.merge ra (Analysis.merge rb rc)))
      /\ same (counts (Analysis.merge ra rb)) (counts (Analysis.merge rb ra))
      /\ Analysis.sentiment_values (Analysis.merge (Analysis.merge ra rb) rc)
         = Analysis.sentiment_values (Analysis.merge ra (Analysis.merge rb rc))
      /\ Permutation (Analysis.sentiment_values (Analysis.merge ra rb))
                     (Analysis.sentiment_values (Analysis.merge rb ra))).
Proof.
  intros Wa Wb Wc Wua Wub Wuc Wva Wvb Wvc
         (Wa1 & Wa2 & Wa3 & Wa4 & Wa5 & Wa6) (Wb1 & Wb2 & Wb3 & Wb4 & Wb5 & Wb6)
         (Wc1 & Wc2 & Wc3 & Wc4 & Wc5 & Wc6).
  refine (conj _ (conj _ (conj _ _))).
  - refine (conj _ (conj _ (conj _ (conj _ (conj _ _))))).
    + intro k. now apply get_merge_add.
    + intro k. rewrite merge_user_add_with. now apply get_merge_with.
    + intro k. rewrite merge_user3_add_with. now apply get_merge_with.
    + reflexivity.
    + reflexivity.
    + reflexivity.
  - intro A. refine (conj _ (conj _ _)).
    + intro N. now apply merge_add_assoc.
    + rewrite !merge_user_add_with. apply merge_with_assoc; auto.
      intros x y z. unfold Spec.join2_with. cbn. now rewrite A.
    + rewrite !merge_user3_add_with. apply merge_with_assoc; auto.
      intros x y z. unfold Spec.join3_with. cbn. rewrite A. f_equal. lia.
  - intro C. refine (conj _ (conj _ (conj _ (conj _ _)))).
    + intro N. now apply merge_add_comm.
    + rewrite !merge_user_add_with. apply merge_with_comm_sums; auto.
      intros x y. unfold Spec.join2_with. cbn. apply C.
    + rewrite !merge_user3_add_with. apply merge_with_comm_sums; auto.
      intros x y. unfold Spec.join3_with. cbn. rewrite C. f_equal. lia.
    + intro S. rewrite !merge_user_add_with. apply merge_with_comm; auto.
      intros k x y Gx Gy. unfold Spec.join2_with.
      rewrite (S k x y Gx Gy), C. reflexivity.
    + intro S. rewrite !merge_user3_add_with. apply merge_with_comm; auto.
      intros k x y Gx Gy. unfold Spec.join3_with.
      rewrite (S k x y Gx Gy), C. f_equal. lia.
  - cbv zeta. cbn [fst snd Analysis.merge Analysis.language_counts
                   Analysis.hourly_post_counts Analysis.interaction_counts
                   Analysis.sentiment_values].
    refine (conj _ (conj _ (conj _ _))).
    + repeat split; apply merge_sum_assoc; assumption.
    + repeat split; apply merge_sum_comm; assumption.
    + now rewrite app_assoc.
    + apply Permutation_app_comm.
Qed.

Lemma merge_associative_commutative_but_username_witness :
  Dict.equiv
    (SrcSrc.merge_user_add Z.add
       (SrcSrc.merge_user_add Z.add Sample.users1 Sample.users2) Sample.users3)
    (SrcSrc.merge_user_add Z.add Sample.users1
       (SrcSrc.merge_user_add Z.add Sample.users2 Sample.users3)).
Proof.
  pose proof (merge_associative_commutative_but_username Z.add 0%Z
                Sample.low_half Sample.high_half Sample.six_hours
                Sample.users1 Sample.users2 Sample.users3
                (Analysis.user_sentiment Sample.part1)
                (Analysis.user_sentiment Sample.part2)
                (Analysis.user_sentiment Sample.part3)
                Sample.part1 Sample.part2 Sample.part3) as L.
  assert (H1 : Dict.wf Sample.low_half) by wf_explicit.
  assert (H2 : Dict.wf Sample.high_half) by wf_explicit.
  assert (H3 : Dict.wf Sample.six_hours) by wf_explicit.
  assert (U1 : Dict.wf Sample.users1) by wf_explicit.
  assert (U2 : Dict.wf Sample.users2) by wf_explicit.
  assert (U3 : Dict.wf Sample.users3) by wf_explicit.
  assert (V1 : Dict.wf (Analysis.user_sentiment Sample.part1)) by wf_explicit.
  assert (V2 : Dict.wf (Analysis.user_sentiment Sample.part2)) by wf_explicit.
  assert (V3 : Dict.wf (Analysis.user_sentiment Sample.part3)) by wf_explicit.
  assert (W1 : Spec.analyzer_wf Sample.part1) by wf_explicit.
  assert (W2 : Spec.analyzer_wf Sample.part2) by wf_explicit.
  assert (W3 : Spec.analyzer_wf Sample.part3) by wf_explicit.
  destruct (L H1 H2 H3 U1 U2 U3 V1 V2 V3 W1 W2 W3) as (_ & A & _).
  exact (proj1 (proj2 (A (fun x y z => eq_sym (Z.add_assoc x y z))))).
Defined.

(** C3, as stated, fails twice. On the username: the two merge orders of
    two user dictionaries that name the account [u1] differently are not
    equal. On the float sums: the addition of doubles is not associative,
    and the three partial sums 0.1, 0.2 and 0.3 of one hour merge to
    0.6000000000000001 in one grouping and to 0.6 in the other, which
    [==] tells apart. *)
Lemma merge_neither_commutative_nor_associative :
  ~ Dict.equiv (SrcSrc.merge_user Sample.users_alice Sample.users_alicia)
               (SrcSrc.merge_user Sample.users_alicia Sample.users_alice)
  /\ (let merge := SrcSrc.merge_add float_add float_zero in
      exists x y,
        Dict.get (merge (merge (Sample.tenths 1) (Sample.tenths 2)) (Sample.tenths 3))
          "2023-03-15 14" = Some x
        /\ Dict.get (merge (Sample.tenths 1) (merge (Sample.tenths 2) (Sample.tenths 3)))
             "2023-03-15 14" = Some y
        /\ float_eqb x y = false).
Proof.
  split.
  - intro E. specialize (E (KStr "u1")). vm_compute in E. discriminate E.
  - cbv zeta. eexists. eexists. repeat split; vm_compute; reflexivity.
Qed.

(** ** The partition of the lines *)

Lemma firstn_plus {A : Type} (a b : nat) (l : list A) :
  firstn (a + b) l = firstn a l ++ firstn b (skipn a l).
Proof.
  revert l. induction a as [|a IH]; intro l; simpl; [reflexivity|].
  destruct l as [|x l]; simpl.
  - now rewrite firstn_nil.
  - now rewrite IH.
Qed.

Lemma skipn_plus {A : Type} (a b : nat) (l : list A) :
  skipn (a + b) l = skipn b (skipn a l).
Proof.
  revert l. induction a as [|a IH]; intro l; simpl; [reflexivity|].
  destruct l as [|x l]; simpl; [now rewrite skipn_nil | apply IH].
Qed.

Section ReadLoop.
Context {S : Type}.
Variable body : string -> S -> S.

(** The loop runs [body] over the lines numbered from [line_to_start] up
    to, not including, [line_to_end]. *)
Lemma read_loop_slice (file : list string) (n s e : nat) (st : S) :
  Src.read_loop body n file s e st
  = fold_left (fun st line => body line st)
      (firstn (e - Nat.max n s) (skipn (s - n) file)) st.
Proof.
  revert n st. induction file as [|line rest IH]; intros n st.
  - simpl. now rewrite skipn_nil, firstn_nil.
  - cbn [Src.read_loop]. destruct (n <? s)%nat eqn:Lt.
    + apply Nat.ltb_lt in Lt. rewrite IH.
      replace (Nat.max (Datatypes.S n) s) with (Nat.max n s) by lia.
      replace (s - n)%nat with (Datatypes.S (s - Datatypes.S n)) by lia.
      reflexivity.
    + apply Nat.ltb_ge in Lt. replace (s - n)%nat with 0%nat by lia.
      cbn [skipn].
      destruct (e <=? n)%nat eqn:Le.
      * apply Nat.leb_le in Le. now replace (e - Nat.max n s)%nat with 0%nat by lia.
      * apply Nat.leb_gt in Le. rewrite IH.
        replace (e - Nat.max n s)%nat
          with (Datatypes.S (e - Nat.max (Datatypes.S n) s)) by lia.
        replace (s - Datatypes.S n)%nat with 0%nat by lia. reflexivity.
Qed.
End ReadLoop.

Lemma fold_left_snoc {A : Type} (xs acc : list A) :
  fold_left (fun acc x => acc ++ [x]) xs acc = acc ++ xs.
Proof.
  revert acc. induction xs as [|x xs IH]; intro acc; simpl.
  - now rewrite app_nil_r.
  - now rewrite IH, <- app_assoc.
Qed.

(** The lines of a rank are the slice its range names. *)
Lemma assigned_lines_slice (file : list string) (P r : nat) :
  Src.assigned_lines file P r
  = firstn (snd (Src.line_range (List.length file) P r)
            - fst (Src.line_range (List.length file) P r))
      (skipn (fst (Src.line_range (List.length file) P r)) file).
Proof.
  unfold Src.assigned_lines.
  destruct (Src.line_range (List.length file) P r) as [s e]. simpl.
  rewrite read_loop_slice, fold_left_snoc. simpl.
  now rewrite Nat.sub_0_r.
Qed.

Lemma line_range_same (N P r : nat) :
  SrcSrc.line_range N P r = Src.line_range N P r.
Proof.
  unfold SrcSrc.line_range, Src.line_range. now rewrite (Nat.mul_comm r).
Qed.

(** The sub-chunks of the refined variant read the same slice. *)
Lemma chunks_slice (file : list string) (step : nat) :
  (0 < step)%nat ->
  forall fuel s e, (e - s <= fuel)%nat ->
  flat_map (fun chunk_start =>
              SrcSrc.read_data_chunk file chunk_start
                (Nat.min (chunk_start + step) e))
           (SrcSrc.range_from fuel s e step)
  = firstn (e - s) (skipn s file).
Proof.
  intros Hstep fuel. induction fuel as [|fuel IH]; intros s e Hf; simpl.
  - now replace (e - s)%nat with 0%nat by lia.
  - destruct (s <? e)%nat eqn:Lt.
    + apply Nat.ltb_lt in Lt. simpl. rewrite IH by lia.
      unfold SrcSrc.read_data_chunk.
      destruct (Nat.le_gt_cases e (s + step)) as [Le|Gt].
      * replace (Nat.min (s + step) e - s)%nat with (e - s)%nat by lia.
        replace (e - (s + step))%nat with 0%nat by lia.
        simpl. now rewrite app_nil_r.
      * replace (Nat.min (s + step) e - s)%nat with step by lia.
        replace (e - s)%nat with (step + (e - (s + step)))%nat by lia.
        now rewrite firstn_plus, skipn_plus.
    + apply Nat.ltb_ge in Lt. now replace (e - s)%nat with 0%nat by lia.
Qed.

Lemma max_chunk_pos : (0 < SrcSrc.max_chunk)%nat.
Proof. unfold SrcSrc.max_chunk. apply Nat.ltb_lt. vm_compute. reflexivity. Qed.

Lemma assigned_lines_same (file : list string) (P r : nat) :
  SrcSrc.assigned_lines file P r = Src.assigned_lines file P r.
Proof.
  rewrite assigned_lines_slice. unfold SrcSrc.assigned_lines.
  rewrite line_range_same.
  destruct (Src.line_range (List.length file) P r) as [s e]. simpl.
  unfold SrcSrc.range. apply chunks_slice; [apply max_chunk_pos | lia].
Qed.

Lemma concat_slices {A : Type} (base k : nat) (l : list A) :
  List.concat (map (fun r => firstn base (skipn (base * r) l)) (seq 0 k))
  = firstn (base * k) l.
Proof.
  induction k as [|k IH].
  - now rewrite Nat.mul_0_r.
  - rewrite seq_S, map_app, concat_app, IH. simpl. rewrite app_nil_r.
    replace (base * Datatypes.S k)%nat with (base * k + base)%nat by lia.
    now rewrite firstn_plus.
Qed.

(** Read in rank order, the lines of the ranks are the file. *)
Lemma assigned_lines_cover (file : list string) (P : nat) :
  (1 <= P)%nat ->
  List.concat (map (Src.assigned_lines file P) (seq 0 P)) = file.
Proof.
  intro HP. destruct P as [|p]; [lia|].
  rewrite seq_S, map_app, concat_app. simpl. rewrite app_nil_r.
  set (N := List.length file). set (base := (N / Datatypes.S p)%nat).
  assert (Hb : (base * Datatypes.S p <= N)%nat).
  { unfold base. rewrite Nat.mul_comm. apply Nat.Div0.mul_div_le. }
  rewrite (map_ext_in _ (fun r => firstn base (skipn (base * r) file))).
  - rewrite concat_slices, assigned_lines_slice. unfold Src.line_range. fold N base.
    replace (p <? Datatypes.S p - 1)%nat with false
      by (symmetry; apply Nat.ltb_ge; lia).
    simpl fst. simpl snd.
    rewrite (firstn_all2 (n := (N - base * p)%nat)).
    + apply firstn_skipn.
    + rewrite length_skipn. fold N. lia.
  - intros r Hr. apply in_seq in Hr. rewrite assigned_lines_slice.
    unfold Src.line_range. fold N base.
    replace (r <? Datatypes.S p - 1)%nat with true
      by (symmetry; apply Nat.ltb_lt; lia).
    simpl fst. simpl snd. f_equal. lia.
Qed.

Lemma line_range_cases (N P r : nat) :
  (r < P)%nat ->
  Src.line_range N P r
  = ((N / P * r)%nat, if (r =? P - 1)%nat then N else (N / P * r + N / P)%nat).
Proof.
  intro Hr. unfold Src.line_range.
  destruct (r <? P - 1)%nat eqn:Lt, (r =? P - 1)%nat eqn:E; try reflexivity.
  - apply Nat.ltb_lt in Lt. apply Nat.eqb_eq in E. lia.
  - apply Nat.ltb_ge in Lt. apply Nat.eqb_neq in E. lia.
Qed.

Lemma line_owner_exists (N P i : nat) :
  (1 <= P)%nat -> (i < N)%nat ->
  exists r, (r < P)%nat
            /\ (fst (Src.line_range N P r) <= i < snd (Src.line_range N P r))%nat.
Proof.
  intros HP Hi. set (base := (N / P)%nat).
  destruct (Nat.lt_ge_cases i (base * (P - 1))) as [Lt|Ge].
  - assert (Hb : (0 < base)%nat) by (destruct base; [simpl in Lt; lia | lia]).
    exists (i / base)%nat.
    assert (Hr : (i / base < P - 1)%nat).
    { apply Nat.Div0.div_lt_upper_bound. lia. }
    split; [lia|]. unfold Src.line_range. fold base.
    replace (i / base <? P - 1)%nat with true by (symmetry; now apply Nat.ltb_lt).
    simpl. split.
    + apply Nat.Div0.mul_div_le.
    + pose proof (Nat.mul_succ_div_gt i base). lia.
  - exists (P - 1)%nat. split; [lia|]. unfold Src.line_range. fold base.
    replace (P - 1 <? P - 1)%nat with false by (symmetry; apply Nat.ltb_irrefl).
    simpl. lia.
Qed.

Lemma line_owner_unique (N P i r r' : nat) :
  (1 <= P)%nat -> (r < P)%nat -> (r' < P)%nat ->
  (fst (Src.line_range N P r) <= i < snd (Src.line_range N P r))%nat ->
  (fst (Src.line_range N P r') <= i < snd (Src.line_range N P r'))%nat ->
  r = r'.
Proof.
  intros HP Hr Hr'. unfold Src.line_range. set (base := (N / P)%nat).
  destruct (r <? P - 1)%nat eqn:L, (r' <? P - 1)%nat eqn:L'; simpl;
    try apply Nat.ltb_lt in L; try apply Nat.ltb_lt in L';
    try apply Nat.ltb_ge in L; try apply Nat.ltb_ge in L'; intros H1 H2.
  - nia.
  - assert (r' = P - 1)%nat by lia. subst r'. nia.
  - assert (r = P - 1)%nat by lia. subst r. nia.
  - lia.
Qed.

(** C2. With [base = N / P], rank [r] owns [[base * r, base * r + base)],
    the last rank [[base * (P - 1), N)]. Every line number below [N]
    belongs to the range of exactly one rank, the ranges lie within
    [[0, N)], the last one holds [base + N mod P] lines, and the lines the
    ranks read, put end to end in rank order, are the file; both variants
    of [main.py] compute the same ranges and read the same lines. *)
Theorem line_ranges_partition (N P : nat) (file : list string) :
  (1 <= P)%nat -> List.length file = N ->
  (forall r, (r < P)%nat ->
     Src.line_range N P r
     = ((N / P * r)%nat,
        if (r =? P - 1)%nat then N else (N / P * r + N / P)%nat))
  /\ (forall i, (i < N)%nat ->
        exists! r, (r < P)%nat
          /\ (fst (Src.line_range N P r) <= i < snd (Src.line_range N P r))%nat)
  /\ (forall r, (r < P)%nat ->
        (fst (Src.line_range N P r) <= snd (Src.line_range N P r) <= N)%nat)
  /\ (snd (Src.line_range N P (P - 1)) - fst (Src.line_range N P (P - 1))
      = N / P + N mod P)%nat
  /\ (forall r, SrcSrc.line_range N P r = Src.line_range N P r)
  /\ List.concat (map (Src.assigned_lines file P) (seq 0 P)) = file
  /\ List.concat (map (SrcSrc.assigned_lines file P) (seq 0 P)) = file.
Proof.
  intros HP HN.
  assert (Hb : (N / P * P <= N)%nat).
  { rewrite Nat.mul_comm. apply Nat.Div0.mul_div_le. }
  refine (conj _ (conj _ (conj _ (conj _ (conj _ (conj _ _)))))).
  - intros r Hr. now apply line_range_cases.
  - intros i Hi. destruct (line_owner_exists N P i HP Hi) as (r & Hr & Hin).
    exists r. split; [now split|].
    intros r' (Hr' & Hin'). eapply line_owner_unique; eauto.
  - intros r Hr. unfold Src.line_range.
    destruct (r <? P - 1)%nat eqn:L; simpl.
    + apply Nat.ltb_lt in L. nia.
    + apply Nat.ltb_ge in L. assert (r = P - 1)%nat by lia. subst r. nia.
  - unfold Src.line_range.
    replace (P - 1 <? P - 1)%nat with false by (symmetry; apply Nat.ltb_irrefl).
    simpl. pose proof (Nat.div_mod_eq N P). nia.
  - intro r. apply line_range_same.
  - subst N. now apply assigned_lines_cover.
  - subst N. rewrite (map_ext _ (Src.assigned_lines file P)).
    + now apply assigned_lines_cover.
    + intro r. apply assigned_lines_same.
Qed.

Lemma line_ranges_partition_witness :
  (forall i, (i < 5)%nat ->
     exists! r, (r < 2)%nat
       /\ (fst (Src.line_range 5 2 r) <= i < snd (Src.line_range 5 2 r))%nat)
  /\ List.concat (map (Src.assigned_lines ["a"; "b"; "c"; "d"; "e"] 2) (seq 0 2))
     = ["a"; "b"; "c"; "d"; "e"].
Proof.
  assert (HP : (1 <= 2)%nat) by lia.
  assert (HN : List.length ["a"; "b"; "c"; "d"; "e"] = 5%nat) by reflexivity.
  destruct (line_ranges_partition 5 2 ["a"; "b"; "c"; "d"; "e"] HP HN)
    as (_ & U & _ & _ & _ & C & _).
  exact (conj U C).
Defined.

(** C10. When there are fewer lines than ranks, [N / P] is 0: every rank
    but the last owns the empty range [[0, 0)] and reads no line, and the
    last rank owns [[0, N)] and reads the whole file, in both variants. *)
Theorem fewer_lines_than_ranks (N P : nat) (file : list string) :
  (N < P)%nat -> List.length file = N ->
  (forall r, (r < P - 1)%nat ->
     Src.line_range N P r = (0%nat, 0%nat)
     /\ SrcSrc.line_range N P r = (0%nat, 0%nat)
     /\ Src.assigned_lines file P r = []
     /\ SrcSrc.assigned_lines file P r = [])
  /\ Src.line_range N P (P - 1) = (0%nat, N)
  /\ SrcSrc.line_range N P (P - 1) = (0%nat, N)
  /\ Src.assigned_lines file P (P - 1) = file
  /\ SrcSrc.assigned_lines file P (P - 1) = file.
Proof.
  intros HNP HN.
  assert (Hbase : (N / P = 0)%nat) by now apply Nat.div_small.
  assert (R : forall r, (r < P - 1)%nat -> Src.line_range N P r = (0%nat, 0%nat)).
  { intros r Hr. unfold Src.line_range. rewrite Hbase.
    replace (r <? P - 1)%nat with true by (symmetry; now apply Nat.ltb_lt).
    reflexivity. }
  assert (L : Src.line_range N P (P - 1) = (0%nat, N)).
  { unfold Src.line_range. rewrite Hbase.
    replace (P - 1 <? P - 1)%nat with false by (symmetry; apply Nat.ltb_irrefl).
    reflexivity. }
  assert (A : forall r, (r < P - 1)%nat -> Src.assigned_lines file P r = []).
  { intros r Hr. rewrite assigned_lines_slice, HN, (R r Hr). reflexivity. }
  assert (B : Src.assigned_lines file P (P - 1) = file).
  { rewrite assigned_lines_slice, HN, L. simpl. rewrite Nat.sub_0_r.
    apply firstn_all2. lia. }
  repeat split.
  - now apply R.
  - rewrite line_range_same. now apply R.
  - now apply A.
  - rewrite assigned_lines_same. now apply A.
  - exact L.
  - now rewrite line_range_same.
  - exact B.
  - now rewrite assigned_lines_same.
Qed.

Lemma fewer_lines_than_ranks_witness :
  Src.assigned_lines ["a"; "b"] 4 0 = []
  /\ Src.assigned_lines ["a"; "b"] 4 3 = ["a"; "b"].
Proof.
  assert (HNP : (2 < 4)%nat) by lia.
  assert (HN : List.length ["a"; "b"] = 2%nat) by reflexivity.
  destruct (fewer_lines_than_ranks 2 4 ["a"; "b"] HNP HN) as (E & _ & _ & F & _).
  assert (H0 : (0 < 4 - 1)%nat) by (simpl; lia).
  destruct (E 0%nat H0) as (_ & _ & E0 & _).
  exact (conj E0 F).
Defined.

(** ** Lines that do not decode *)

(** C5, as the code has it. [MastodonAnalyzer.process_line] decodes the
    line as read: a blank line and a line [json.loads] rejects make it
    return [False] with every accumulator as it was. The loops of
    [main.py] (both variants) strip the line first and decode what is
    left: a blank line and a line rejected once stripped leave the two
    dictionaries as they were. The exception of the decoder is caught
    inside: the functions return on every line, and the lines that follow
    are aggregated as if the line were not there. *)
Theorem undecodable_line_dropped `{Runtime} (line : string) (rest : list string)
    (self : Analysis.MastodonAnalyzer)
    (hours : SrcSrc.hour_dict) (users : SrcSrc.user_dict)
    (hours0 : Src.hour_dict) (users0 : Src.user_dict) :
  (strip line = "" \/ json_loads line = None ->
   Analysis.process_line self line = (false, self)
   /\ Analysis.process_lines self (line :: rest) = Analysis.process_lines self rest)
  /\ (strip line = "" \/ json_loads (strip line) = None ->
      SrcSrc.process_line (hours, users) line = (hours, users)
      /\ Src.process_line line (hours0, users0) = (hours0, users0)
      /\ fold_left SrcSrc.process_line (line :: rest) (hours, users)
         = fold_left SrcSrc.process_line rest (hours, users)
      /\ fold_left (fun st l => Src.process_line l st) (line :: rest) (hours0, users0)
         = fold_left (fun st l => Src.process_line l st) rest (hours0, users0)).
Proof.
  split.
  - intro U.
    assert (A : Analysis.process_line self line = (false, self)).
    { unfold Analysis.process_line, SrcSrc.MastodonData.
      destruct U as [Blank | Bad]; [now rewrite Blank|].
      rewrite Bad. now destruct (strip line =? ""). }
    split; [exact A|].
    unfold Analysis.process_lines. cbn [fold_left]. now rewrite A.
  - intro U.
    assert (A : SrcSrc.process_line (hours, users) line = (hours, users)
                /\ Src.process_line line (hours0, users0) = (hours0, users0)).
    { unfold SrcSrc.process_line, Src.process_line,
        SrcSrc.preprocess_data, Src.preprocess_data,
        SrcSrc.processing_data, Src.processing_data,
        SrcSrc.MastodonData, Src.MastodonData.
      destruct U as [Blank | Bad]; [rewrite Blank; auto|].
      destruct (strip line =? ""); cbn [fst snd]; rewrite ?Bad; auto. }
    destruct A as [A1 A2]. refine (conj A1 (conj A2 (conj _ _))).
    + cbn [fold_left]. now rewrite A1.
    + cbn [fold_left]. now rewrite A2.
Qed.

Lemma undecodable_line_dropped_witness :
  @Analysis.process_line Sample.runtime Sample.part1 Sample.line_garbage
  = (false, Sample.part1)
  /\ @SrcSrc.process_line Sample.runtime ([], []) Sample.line_blank = ([], []).
Proof.
  split.
  - refine (proj1 (proj1 (@undecodable_line_dropped Sample.runtime
                            Sample.line_garbage [] Sample.part1 [] [] [] []) _)).
    right. vm_compute. reflexivity.
  - refine (proj1 (proj2 (@undecodable_line_dropped Sample.runtime
                            Sample.line_blank [] Sample.part1 [] [] [] []) _)).
    left. vm_compute. reflexivity.
Defined.

(** C5, as stated, fails for the loops of [main.py] on a raw line that is
    not valid JSON and is valid once stripped: after a form feed, which
    [json.loads] does not skip and [str.strip] removes, the first line of
    the example is rejected as read and aggregated by both loops, while
    [process_line] drops it. *)
Lemma line_rejected_as_read_is_aggregated :
  @json_loads Sample.runtime Sample.line_form_feed = None
  /\ @strip Sample.runtime Sample.line_form_feed = Sample.line1
  /\ @SrcSrc.process_line Sample.runtime ([], []) Sample.line_form_feed
     = ([("2023-03-15 14", 2%Z)], [(KStr "u1", (VStr "alice", 2%Z))])
  /\ @Src.process_line Sample.runtime Sample.line_form_feed ([], [])
     = ([("2023-03-15 14", 2%Z)], [(KStr "u1", (VStr "alice", VNum 2))])
  /\ @Analysis.process_line Sample.runtime Analysis.init Sample.line_form_feed
     = (false, Analysis.init).
Proof. repeat split; vm_compute; reflexivity. Qed.

(** ** The decoded record *)

Section Decoded.
Context `{Runtime}.

Lemma MastodonData_inv (data : string) (md : SrcSrc.MastodonData_obj) :
  SrcSrc.MastodonData data = Ok md ->
  exists json_data account,
    json_loads data = Some (VDict json_data)
    /\ py_get (VDict json_data) "account" (VDict []) = Ok (VDict account)
    /\ SrcSrc.created_at md
       = match assoc "created_at" json_data with Some v => v | None => VStr "" end
    /\ SrcSrc.sentiment_of (VDict json_data) = Ok (SrcSrc.sentiment md)
    /\ SrcSrc.user_id md
       = match assoc "id" account with Some v => v | None => VStr "" end
    /\ SrcSrc.username md
       = match assoc "username" account with Some v => v | None => VStr "" end.
Proof.
  unfold SrcSrc.MastodonData. destruct (json_loads data) as [j|]; [|discriminate].
  destruct j as [| | | |json_data]; try discriminate.
  simpl py_get at 1. cbn [bind].
  destruct (SrcSrc.sentiment_of (VDict json_data)) as [s|] eqn:S; [|discriminate].
  cbn [bind]. simpl py_get at 1. cbn [bind].
  destruct (match assoc "account" json_data with Some v => v | None => VDict [] end)
    as [| | | |account] eqn:A; try discriminate.
  simpl. intro E. inversion E; subst; clear E. simpl.
  exists json_data, account. rewrite A. repeat split; try reflexivity. exact S.
Qed.



End Decoded.





(** In the first variant a word as sentiment raises in the hour sum,
    which drops the record as well. *)
Lemma first_variant_drops_a_word :
  @Src.processing_data Sample.runtime Sample.line_word [] [] = ([], []).
Proof. vm_compute. reflexivity. Qed.

(** ** Time stamp and user paths *)




(** The first variant returns from the [except] of the date block: a
    record whose time stamp is not a date never reaches its user block. *)
Lemma first_variant_bad_date_returns :
  @Src.processing_data Sample.runtime Sample.line_bad_date [] [] = ([], [])
  /\ @Src.processing_data Sample.runtime Sample.line_no_date [] []
     = ([], [(KStr "u1", (VStr "alice", VNum 3))]).
Proof. split; vm_compute; reflexivity. Qed.

(** ** The user accumulator *)


(** A regular post: an object with a time stamp that parses, as
    sentiment an integer that is a double, and an account. *)
Section Posts.
Context `{Runtime}.
Variables (line ts id name : string) (s : Z) (dt : datetime).
Hypothesis J : json_loads line = Some (Sample.post_obj ts (VNum s) id name).
Hypothesis F : fromisoformat (replace_Z ts) = Some dt.
Hypothesis Hts : (ts =? "") = false.
Hypothesis Hid : (id =? "") = false.
Hypothesis Hs : double_of_Z s = Some s.





End Posts.








(** ** Selection by heapq *)

Section HeapqFacts.
Context {A : Type}.
Variable key : A -> Z.
Implicit Types (a b : A) (l r : list A).

Lemma insert_desc_perm a l : Permutation (Heapq.insert_desc key a l) (a :: l).
Proof.
  induction l as [|b r IH]; simpl; [reflexivity|].
  destruct (key a <? key b)%Z; [|reflexivity].
  rewrite IH. apply perm_swap.
Qed.

Lemma sorted_reverse_perm l : Permutation (Heapq.sorted_reverse key l) l.
Proof.
  induction l as [|a l IH]; simpl; [reflexivity|].
  now rewrite insert_desc_perm, IH.
Qed.

Lemma insert_desc_descending a l :
  Spec.descending key l -> Spec.descending key (Heapq.insert_desc key a l).
Proof.
  unfold Spec.descending. induction 1 as [|b r Hr IH Hb]; simpl.
  - repeat constructor.
  - destruct (key a <? key b)%Z eqn:E.
    + apply Z.ltb_lt in E. constructor; [assumption|].
      rewrite insert_desc_perm. constructor; [lia | assumption].
    + apply Z.ltb_ge in E. constructor; [now constructor|].
      constructor; [assumption|].
      eapply Forall_impl; [|exact Hb]. simpl. intros; lia.
Qed.

Lemma sorted_reverse_descending l : Spec.descending key (Heapq.sorted_reverse key l).
Proof.
  induction l as [|a l IH]; simpl; [constructor | now apply insert_desc_descending].
Qed.




End HeapqFacts.

(** [nsmallest] is [nlargest] for the opposite score. *)
Section Opposite.
Context {A : Type}.
Variable key : A -> Z.






End Opposite.


Section OrderIndependence.
Context {A : Type}.
Variable key : A -> Z.


End OrderIndependence.




(** ** Merging ranked lists *)

Section HeapqMerge.
Context {A : Type}.
Variable k : A -> Z.
Implicit Types (a b c : A) (x y z : list A).

Lemma merge_nil_l y : Heapq.merge k [] y = y.
Proof. now destruct y. Qed.

Lemma merge_nil_r x : Heapq.merge k x [] = x.
Proof. now destruct x. Qed.

Lemma merge_cons a x b y :
  Heapq.merge k (a :: x) (b :: y)
  = if (k a <=? k b)%Z then a :: Heapq.merge k x (b :: y)
    else b :: Heapq.merge k (a :: x) y.
Proof. reflexivity. Qed.


(** Only the first [n] items of either list reach the first [n] items of
    the merge. *)
Lemma firstn_merge_firstn (n p q : nat) x y :
  (n <= p)%nat -> (n <= q)%nat ->
  firstn n (Heapq.merge k (firstn p x) (firstn q y))
  = firstn n (Heapq.merge k x y).
Proof.
  revert p q x y. induction n as [|n IH]; intros p q x y Hp Hq; [reflexivity|].
  destruct p as [|p]; [lia|]. destruct q as [|q]; [lia|].
  destruct x as [|a x], y as [|b y].
  - reflexivity.
  - cbn [firstn]. rewrite !merge_nil_l. rewrite firstn_firstn.
    f_equal. f_equal. lia.
  - cbn [firstn]. rewrite !merge_nil_r. rewrite firstn_firstn.
    f_equal. f_equal. lia.
  - cbn [firstn]. rewrite !merge_cons. destruct (k a <=? k b)%Z; cbn [firstn]; f_equal.
    + rewrite <- (firstn_cons q b y). apply IH; lia.
    + rewrite <- (firstn_cons p a x). apply IH; lia.
Qed.

Lemma firstn_merge_l (n : nat) x y :
  firstn n (Heapq.merge k (firstn n x) y) = firstn n (Heapq.merge k x y).
Proof.
  destruct (Nat.le_gt_cases n (List.length y)) as [Le|Gt].
  - transitivity (firstn n (Heapq.merge k (firstn n x) (firstn (List.length y) y))).
    + now rewrite firstn_all.
    + now apply firstn_merge_firstn.
  - transitivity (firstn n (Heapq.merge k (firstn n x) (firstn n y))).
    + now rewrite (firstn_all2 (n := n) y) by lia.
    + now apply firstn_merge_firstn.
Qed.

Lemma firstn_merge_r (n : nat) x y :
  firstn n (Heapq.merge k x (firstn n y)) = firstn n (Heapq.merge k x y).
Proof.
  destruct (Nat.le_gt_cases n (List.length x)) as [Le|Gt].
  - transitivity (firstn n (Heapq.merge k (firstn (List.length x) x) (firstn n y))).
    + now rewrite firstn_all.
    + now apply firstn_merge_firstn.
  - transitivity (firstn n (Heapq.merge k (firstn n x) (firstn n y))).
    + now rewrite (firstn_all2 (n := n) x) by lia.
    + now apply firstn_merge_firstn.
Qed.

(** The loop of the first [merge_list] yields the head of the merge. *)
Lemma merge_loop_firstn (ge : A -> A -> bool) :
  (forall a b, ge a b = (k a <=? k b)%Z) ->
  forall fuel merged x y,
    Src.merge_loop ge fuel merged x y
    = merged ++ firstn fuel (Heapq.merge k x y).
Proof.
  intros G fuel. induction fuel as [|fuel IH]; intros merged x y.
  - simpl. now rewrite app_nil_r.
  - destruct x as [|a x], y as [|b y]; cbn [Src.merge_loop].
    + simpl. now rewrite app_nil_r.
    + rewrite IH, !merge_nil_l. cbn [firstn]. now rewrite <- app_assoc.
    + rewrite IH, !merge_nil_r. cbn [firstn]. now rewrite <- app_assoc.
    + rewrite merge_cons, G.
      destruct (k a <=? k b)%Z; rewrite IH; cbn [firstn]; now rewrite <- app_assoc.
Qed.
End HeapqMerge.

(** Case analysis on the comparisons of a goal. *)
Ltac cmp :=
  repeat match goal with
         | |- context [(?u <? ?v)%Z] => destruct (Z.ltb_spec u v)
         | |- context [(?u <=? ?v)%Z] => destruct (Z.leb_spec u v)
         end; try lia.

Section TopK.
Context {A : Type}.
Variable score : A -> Z.
Local Abbreviation kneg := (fun x : A => (- score x)%Z).
Implicit Types (a b c : A) (s t x y : list A).

Lemma merge_neg_cons a x b y :
  Heapq.merge kneg (a :: x) (b :: y)
  = if (score b <=? score a)%Z then a :: Heapq.merge kneg x (b :: y)
    else b :: Heapq.merge kneg (a :: x) y.
Proof. rewrite merge_cons. cmp; reflexivity. Qed.

(** Inserting into a merge is merging after the insertion on the left. *)
Lemma insert_desc_merge a s t :
  Heapq.insert_desc score a (Heapq.merge kneg s t)
  = Heapq.merge kneg (Heapq.insert_desc score a s) t.
Proof.
  revert t. induction s as [|c s IHs]; intro t.
  - rewrite merge_nil_l. cbn [Heapq.insert_desc].
    induction t as [|b t IHt]; [reflexivity|].
    cbn [Heapq.insert_desc]. rewrite merge_neg_cons. cmp.
    + now rewrite IHt.
    + now rewrite merge_nil_l.
  - induction t as [|b t IHt].
    + now rewrite !merge_nil_r.
    + rewrite (merge_neg_cons c s b t). cbn [Heapq.insert_desc].
      destruct (Z.leb_spec (score b) (score c));
        cbn [Heapq.insert_desc];
        destruct (Z.ltb_spec (score a) (score c));
        destruct (Z.ltb_spec (score a) (score b)); try lia;
        rewrite ?merge_neg_cons; cmp.
      all: try (now rewrite IHs).
      all: try (rewrite IHt; cbn [Heapq.insert_desc]; cmp).
      all: try (rewrite merge_neg_cons; cmp).
      all: try reflexivity.
Qed.

(** The ranking of a concatenation is the merge of the two rankings. *)
Lemma sorted_reverse_app x y :
  Heapq.sorted_reverse score (x ++ y)
  = Heapq.merge kneg (Heapq.sorted_reverse score x) (Heapq.sorted_reverse score y).
Proof.
  induction x as [|a x IH].
  - change (Heapq.sorted_reverse score []) with (@nil A).
    now rewrite merge_nil_l.
  - cbn [app Heapq.sorted_reverse fold_right].
    fold (Heapq.sorted_reverse score (x ++ y)). fold (Heapq.sorted_reverse score x).
    now rewrite IH, insert_desc_merge.
Qed.

(** The top n of two top n lists is the top n of the two inputs. *)
Lemma nlargest_merge (n : nat) x y :
  firstn n (Heapq.merge kneg (Heapq.nlargest score n x) (Heapq.nlargest score n y))
  = Heapq.nlargest score n (x ++ y).
Proof.
  unfold Heapq.nlargest. now rewrite firstn_merge_l, firstn_merge_r, sorted_reverse_app.
Qed.



(** Reduced along any tree, local top n lists give the top n of all the
    items, in the order of the ranks. *)
Lemma reduce_nlargest (n : nat) (t : MPI.tree (list A)) :
  forall chunks,
    MPI.leaves t = map (Heapq.nlargest score n) chunks ->
    MPI.reduce (fun x y => firstn n (Heapq.merge kneg x y)) t
    = Heapq.nlargest score n (List.concat chunks).
Proof.
  induction t as [a|l IHl r IHr]; intros chunks L; cbn [MPI.leaves MPI.reduce] in *.
  - destruct chunks as [|c [|c' cs]]; try discriminate.
    inversion L; subst. simpl. now rewrite app_nil_r.
  - symmetry in L. apply map_eq_app in L. destruct L as (c1 & c2 & -> & L1 & L2).
    rewrite (IHl c1), (IHr c2) by (symmetry; assumption).
    now rewrite nlargest_merge, concat_app.
Qed.
End TopK.

Section ArraySplit.
Context {A : Type}.

Lemma concat_take_sections (sizes : list nat) (l : list A) :
  List.concat (Numpy.take_sections l sizes) = firstn (list_sum sizes) l.
Proof.
  revert l. induction sizes as [|s r IH]; intro l; simpl; [reflexivity|].
  now rewrite IH, firstn_plus.
Qed.

Lemma list_sum_repeat (a m : nat) : list_sum (repeat a m) = (m * a)%nat.
Proof. induction m as [|m IH]; simpl; [reflexivity | now rewrite IH]. Qed.

Lemma section_sizes_sum (len n : nat) :
  (1 <= n)%nat -> list_sum (Numpy.section_sizes len n) = len.
Proof.
  intro Hn. unfold Numpy.section_sizes.
  rewrite list_sum_app, !list_sum_repeat.
  pose proof (Nat.div_mod_eq len n) as D.
  assert (M : (len mod n < n)%nat) by (apply Nat.mod_upper_bound; lia).
  nia.
Qed.

(** The sections of [array_split], end to end, are the list. *)
Lemma concat_array_split (l : list A) (n : nat) :
  (1 <= n)%nat -> List.concat (Numpy.array_split l n) = l.
Proof.
  intro Hn. unfold Numpy.array_split.
  rewrite concat_take_sections, section_sizes_sum by assumption.
  apply firstn_all.
Qed.
End ArraySplit.

(** The two [merge_list] of the repository compute the same list on
    [(hour, score)] items. *)
Lemma merge_list_variants (x y : list (string * Z)) (n : nat) :
  Src.merge_list Src.hour_ge x y n = SrcSrc.merge_list snd x y n.
Proof.
  unfold Src.merge_list, SrcSrc.merge_list.
  rewrite (merge_loop_firstn (fun item => (- snd item)%Z)); [reflexivity|].
  intros a b. unfold Src.hour_ge. cmp; reflexivity.
Qed.

(** ** The merge operator of the top-n reduction *)



(** The happiest hours of the distributed stage are those of the single
    process, whatever the number of ranks and the shape of the reduction. *)
Lemma distributed_happiest_equals_single (items : list (string * Z)) (P : nat)
    (t : MPI.tree (list (string * Z))) :
  (1 <= P)%nat ->
  MPI.leaves t = Src.local_happiest Src.hour_score items P ->
  Src.reduce_happiest Src.hour_ge t = Src.happiest_single Src.hour_score items.
Proof.
  intros HP L. unfold Src.reduce_happiest, Src.happiest_single.
  unfold Src.local_happiest, Src.scattered in L.
  rewrite <- (concat_array_split items P HP).
  rewrite <- (reduce_nlargest Src.hour_score Src.top_n t _ L).
  clear L. induction t as [a|l IHl r IHr]; cbn [MPI.reduce]; [reflexivity|].
  now rewrite IHl, IHr, merge_list_variants.
Qed.

(** C8 at the input that shows the defect. The saddest lists are ranked
    by increasing score, and the reduction merges them with
    [merge_list(y, x)], which still takes the larger head first: from the
    local lists 0, 1, 2 and 3, 4, 5 it keeps 3, 4, 5, 0, 1, whereas the
    bottom five of their union are 0, 1, 2, 3, 4. *)
Theorem merge_list_keeps_larger_heads :
  Spec.ascending Src.hour_score Sample.low_half
  /\ Spec.ascending Src.hour_score Sample.high_half
  /\ Src.merge_list Src.hour_ge Sample.high_half Sample.low_half 5
     = [("2023-03-15 03", 3%Z); ("2023-03-15 04", 4%Z); ("2023-03-15 05", 5%Z);
        ("2023-03-15 00", 0%Z); ("2023-03-15 01", 1%Z)]
  /\ Heapq.nsmallest Src.hour_score 5 (Sample.low_half ++ Sample.high_half)
     = [("2023-03-15 00", 0%Z); ("2023-03-15 01", 1%Z); ("2023-03-15 02", 2%Z);
        ("2023-03-15 03", 3%Z); ("2023-03-15 04", 4%Z)].
Proof.
  split; [|split; [|split; vm_compute; reflexivity]];
    repeat constructor; simpl; lia.
Qed.

(** C1 at the input that shows the defect: six posts in six hours with
    the sentiments 0 to 5, on two ranks. Each rank aggregates three
    hours. The reduction of the two hour dictionaries with [operator.add]
    raises [TypeError], so the run ends there. Given the merged
    dictionary all the same (the merge loop of the refined variant builds
    it), [array_split] hands three hours to each rank, the local saddest
    lists are these halves, and their reduction returns the hours of
    score 3, 4, 5, 0, 1, where the single process returns those of score
    0, 1, 2, 3, 4. *)
Theorem distributed_saddest_differs_from_single :
  fst (@Src.map_phase Sample.runtime Sample.six_posts 2 0) = Sample.low_half
  /\ fst (@Src.map_phase Sample.runtime Sample.six_posts 2 1) = Sample.high_half
  /\ Src.reduced_hour_sentiment
       (MPI.Node (MPI.Leaf Sample.low_half) (MPI.Leaf Sample.high_half))
     = Raise TypeError
  /\ SrcSrc.reduced_hour_sentiment [Sample.low_half; Sample.high_half]
     = Sample.six_hours
  /\ fst (@Src.map_phase Sample.runtime Sample.six_posts 1 0) = Sample.six_hours
  /\ Src.local_saddest Src.hour_score Sample.six_hours 2
     = [Sample.low_half; Sample.high_half]
  /\ Src.reduce_saddest Src.hour_ge
       (MPI.Node (MPI.Leaf Sample.low_half) (MPI.Leaf Sample.high_half))
     = [("2023-03-15 03", 3%Z); ("2023-03-15 04", 4%Z); ("2023-03-15 05", 5%Z);
        ("2023-03-15 00", 0%Z); ("2023-03-15 01", 1%Z)]
  /\ Src.saddest_single Src.hour_score Sample.six_hours
     = [("2023-03-15 00", 0%Z); ("2023-03-15 01", 1%Z); ("2023-03-15 02", 2%Z);
        ("2023-03-15 03", 3%Z); ("2023-03-15 04", 4%Z)].
Proof. repeat split; vm_compute; reflexivity. Qed.

(* ================================================================== *)
(** * Further properties of the code *)
(* ================================================================== *)

(** ** Aggregation as a fold of keyed items *)

Section Gathered.
Context {K V : Type} `{KeyLaws K}.
Variable f : V -> V -> V.
Hypothesis f_assoc : forall x y z, f (f x y) z = f x (f y z).
Implicit Types (a b : Dict.t K V) (k : K).

Lemma opt_merge_assoc (x y z : option V) :
  Spec.opt_merge f (Spec.opt_merge f x y) z
  = Spec.opt_merge f x (Spec.opt_merge f y z).
Proof. destruct x, y, z; simpl; now rewrite ?f_assoc. Qed.

Lemma opt_merge_None_l (x : option V) : Spec.opt_merge f None x = x.
Proof. now destruct x. Qed.

Lemma opt_merge_None_r (x : option V) : Spec.opt_merge f x None = x.
Proof. now destruct x. Qed.

(** Folding items into a dictionary gives each key what it held, combined
    with what the items gather for it. *)
Lemma get_merge_items a (items : list (K * V)) k :
  Dict.get (Spec.merge_with f a items) k
  = Spec.opt_merge f (Dict.get a k) (Spec.gathered f k items).
Proof.
  unfold Spec.merge_with. revert a.
  induction items as [|[k0 v0] r IH]; intro a; cbn [fold_left Spec.gathered].
  - now rewrite opt_merge_None_r.
  - rewrite IH. destruct (key_dec k0 k) as [->|N].
    + rewrite keqb_refl, <- opt_merge_assoc. f_equal.
      destruct (Dict.get a k); now rewrite get_set_same.
    + rewrite (keqb_neq _ _ N). f_equal.
      destruct (Dict.get a k0); now rewrite get_set_other.
Qed.

Lemma gathered_app (items items' : list (K * V)) k :
  Spec.gathered f k (items ++ items')
  = Spec.opt_merge f (Spec.gathered f k items) (Spec.gathered f k items').
Proof.
  induction items as [|[k0 v0] r IH]; cbn [app Spec.gathered].
  - now rewrite opt_merge_None_l.
  - destruct (keqb k0 k); [|exact IH]. now rewrite IH, opt_merge_assoc.
Qed.

Lemma merge_with_app a (items items' : list (K * V)) :
  Spec.merge_with f a (items ++ items')
  = Spec.merge_with f (Spec.merge_with f a items) items'.
Proof. unfold Spec.merge_with. apply fold_left_app. Qed.

(** Merging the dictionary built from some items is folding the items. *)
Lemma merge_with_built a (items : list (K * V)) :
  Dict.equiv (Spec.merge_with f a (Spec.merge_with f [] items))
             (Spec.merge_with f a items).
Proof.
  intro k. rewrite get_merge_with by (apply wf_merge_with; constructor).
  rewrite !get_merge_items. simpl Dict.get. now rewrite opt_merge_None_l.
Qed.

End Gathered.

(** ** The insertion order of the keys *)

Section Order.
Context {K V : Type} `{KeyLaws K}.
Variable f : V -> V -> V.
Hypothesis f_assoc : forall x y z, f (f x y) z = f x (f y z).

Lemma contains_seen (d : Dict.t K V) (k : K) :
  Dict.contains d k = Spec.seen (Dict.keys d) k.
Proof.
  unfold Dict.contains, Spec.seen.
  induction d as [|[k0 v0] r IH]; cbn [Dict.get Dict.keys map fst existsb];
    [reflexivity|].
  destruct (keqb k0 k); [reflexivity | exact IH].
Qed.

Lemma seen_In (ks : list K) (k : K) : Spec.seen ks k = true <-> In k ks.
Proof.
  unfold Spec.seen. rewrite existsb_exists. split.
  - intros (x & I & E). apply keqb_eq in E. now subst.
  - intro I. exists k. split; [assumption | apply keqb_refl].
Qed.

(** The keys after a fold of items: those the dictionary had, then the
    new ones in the order the items name them first. *)
Lemma keys_merge_with (a : Dict.t K V) (items : list (K * V)) :
  Dict.keys (Spec.merge_with f a items)
  = Spec.first_seen (Dict.keys a) (map fst items).
Proof.
  unfold Spec.merge_with, Spec.first_seen. revert a.
  induction items as [|[k v] r IH]; intro a; cbn [fold_left map fst];
    [reflexivity|].
  rewrite IH. f_equal. rewrite <- contains_seen.
  destruct (Dict.get a k) eqn:G; rewrite keys_set; reflexivity.
Qed.

Lemma first_seen_In (ks new : list K) (k : K) :
  In k (Spec.first_seen ks new) <-> In k ks \/ In k new.
Proof.
  unfold Spec.first_seen. revert ks.
  induction new as [|k0 r IH]; intro ks; cbn [fold_left In]; [tauto|].
  rewrite IH. destruct (Spec.seen ks k0) eqn:S.
  - apply seen_In in S. split; [tauto|]. intros [I|[<-|I]]; tauto.
  - rewrite in_app_iff. cbn [In]. tauto.
Qed.

Lemma first_seen_built (ks new : list K) :
  Spec.first_seen ks (Spec.first_seen [] new) = Spec.first_seen ks new.
Proof.
  induction new as [|k r IH] using rev_ind; [reflexivity|].
  unfold Spec.first_seen at 2 3. rewrite !fold_left_app. cbn [fold_left].
  fold (Spec.first_seen [] r). fold (Spec.first_seen ks r).
  destruct (Spec.seen (Spec.first_seen [] r) k) eqn:S.
  - rewrite IH.
    assert (S' : Spec.seen (Spec.first_seen ks r) k = true).
    { apply seen_In, first_seen_In. right.
      apply seen_In, first_seen_In in S. destruct S as [[]|S]. exact S. }
    now rewrite S'.
  - unfold Spec.first_seen at 1. rewrite fold_left_app. cbn [fold_left].
    fold (Spec.first_seen ks (Spec.first_seen [] r)). now rewrite IH.
Qed.

(** Two dictionaries with the same keys in the same order and the same
    value under every key are the same list of items. *)
Lemma eq_of_keys_equiv (a b : Dict.t K V) :
  Dict.wf a -> Dict.keys a = Dict.keys b -> Dict.equiv a b -> a = b.
Proof.
  unfold Dict.wf. revert b.
  induction a as [|[k v] ra IH]; intros [|[k' v'] rb] W Ks E; try discriminate.
  - reflexivity.
  - cbn [Dict.keys map fst] in *. inversion Ks as [[Ek Er]]. subst k'.
    inversion W as [|? ? Hnin Wr]; subst.
    pose proof (E k) as Ek. cbn [Dict.get] in Ek. rewrite keqb_refl in Ek.
    inversion Ek; subst v'. f_equal. apply IH; [assumption..|].
    intro k'. destruct (key_dec k k') as [<-|N].
    + assert (G1 : Dict.get ra k = None) by now apply get_None_keys.
      assert (G2 : Dict.get rb k = None)
        by (apply get_None_keys; unfold Dict.keys; now rewrite <- Er).
      now rewrite G1, G2.
    + pose proof (E k') as Q. cbn [Dict.get] in Q.
      now rewrite (keqb_neq _ _ N) in Q.
Qed.

(** Merging the dictionary built from some items is folding the items:
    same values, same insertion order. *)
Lemma merge_with_built_eq (a : Dict.t K V) (items : list (K * V)) :
  Dict.wf a ->
  Spec.merge_with f a (Spec.merge_with f [] items) = Spec.merge_with f a items.
Proof.
  intro W. apply eq_of_keys_equiv.
  - now apply wf_merge_with.
  - rewrite !keys_merge_with. fold (Dict.keys (Spec.merge_with f [] items)).
    rewrite keys_merge_with. apply first_seen_built.
  - now apply merge_with_built.
Qed.

(** Merged in order, the dictionaries built from the pieces of an item
    list are the dictionary built from the whole list. *)
Lemma fold_merge_built_eq (pieces : list (list (K * V))) (a : Dict.t K V) :
  Dict.wf a ->
  fold_left (Spec.merge_with f) (map (Spec.merge_with f []) pieces) a
  = Spec.merge_with f a (List.concat pieces).
Proof.
  revert a.
  induction pieces as [|p ps IH]; intros a W; cbn [map fold_left List.concat].
  - reflexivity.
  - rewrite merge_with_built_eq by assumption.
    rewrite IH by now apply wf_merge_with.
    now rewrite merge_with_app.
Qed.
End Order.

(** ** The result does not depend on the number of ranks: main.py *)

Section RanksMain.
Context `{Runtime}.


End RanksMain.

Lemma flat_map_concat {A B : Type} (g : A -> list B) (ls : list (list A)) :
  flat_map g (List.concat ls) = List.concat (map (flat_map g) ls).
Proof.
  induction ls as [|l ls IH]; [reflexivity|].
  cbn [List.concat map]. now rewrite flat_map_app, IH.
Qed.


(** The parts of the ranks, merged in rank order, against one pass. *)
Lemma merged_parts_items {K V B : Type} `{KeyLaws K} (f : V -> V -> V)
    (g : B -> list (K * V)) (slices : list (list B)) :
  (forall x y z, f (f x y) z = f x (f y z)) ->
  fold_left (Spec.merge_with f)
    (map (fun s => Spec.merge_with f [] (flat_map g s)) slices) []
  = Spec.merge_with f [] (flat_map g (List.concat slices)).
Proof.
  intro A. rewrite flat_map_concat, <- (map_map (flat_map g)).
  apply fold_merge_built_eq; [exact A | constructor].
Qed.




(** ** The result does not depend on the number of ranks: analysis.py *)

Section RanksAnalysis.
Context `{Runtime}.

Lemma incr_items {K : Type} `{KeyLaws K} (d : Dict.t K Z) (k : K) (v : Z) :
  Analysis.incr d k v = Spec.merge_with Z.add d [(k, v)].
Proof.
  unfold Analysis.incr, Spec.merge_with, Dict.get_default. cbn [fold_left].
  now destruct (Dict.get d k).
Qed.

Lemma interactions_items (reply reblog favourites : value)
    (languages' : Dict.t hkey Z) (interactions : Dict.t string Z) :
  (let i1 := if truthy reply
             then Analysis.incr interactions "replies" 1 else interactions in
   let i2 := if truthy reblog then Analysis.incr i1 "reblogs" 1 else i1 in
   if truthy favourites then
     match num_add (Dict.get_default i2 "favorites" 0%Z) favourites with
     | Ok total => (languages', Dict.set i2 "favorites" total)
     | Raise _ =>
         (languages',
          Dict.set i2 "favorites" (Dict.get_default i2 "favorites" 0%Z))
     end
   else (languages', i2))
  = (languages',
     Spec.merge_with Z.add interactions
       ((if truthy reply then [("replies", 1%Z)] else [])
        ++ (if truthy reblog then [("reblogs", 1%Z)] else [])
        ++ (if truthy favourites then
              match favourites with
              | VNum z => [("favorites", z)]
              | _ => [("favorites", 0%Z)]
              end
            else []))).
Proof.
  assert (I : forall (i : Dict.t string Z) k (b : bool),
             (if b then Analysis.incr i k 1 else i)
             = Spec.merge_with Z.add i (if b then [(k, 1%Z)] else [])).
  { intros i k []; [apply incr_items | reflexivity]. }
  cbv zeta. rewrite !merge_with_app, <- !I.
  set (i2 := if truthy reblog then _ else _).
  destruct (truthy favourites); [|reflexivity].
  assert (Z0 : Dict.set i2 "favorites" (Dict.get_default i2 "favorites" 0%Z)
               = Spec.merge_with Z.add i2 [("favorites", 0%Z)]).
  { rewrite <- incr_items. unfold Analysis.incr. now rewrite Z.add_0_r. }
  destruct favourites; cbn [num_add]; try (f_equal; exact Z0).
  f_equal. apply (incr_items i2 "favorites" z).
Qed.

Lemma process_additional_items (line : string) (md : SrcSrc.MastodonData_obj)
    (languages : Dict.t hkey Z) (interactions : Dict.t string Z) :
  Spec.counted line = Some md ->
  Analysis.process_additional line languages interactions
  = (Spec.merge_with Z.add languages (fst (Spec.additional_items line)),
     Spec.merge_with Z.add interactions (snd (Spec.additional_items line))).
Proof.
  intro C. unfold Analysis.process_additional, Spec.additional_items. rewrite C.
  destruct (json_loads line) as [[| | | |json_data]|]; try reflexivity.
  cbv beta zeta.
  set (language := match assoc "language" json_data with
                   | Some v => v | None => VNone end).
  set (reply := match assoc "in_reply_to_id" json_data with
                | Some v => v | None => VNone end).
  set (reblog := match assoc "reblog" json_data with
                 | Some v => v | None => VNone end).
  set (favourites := match assoc "favourites_count" json_data with
                     | Some v => v | None => VNone end).
  destruct (truthy language).
  - destruct (to_key language) as [k|]; cbn [bind]; [|reflexivity].
    rewrite (interactions_items reply reblog favourites). cbn [fst snd].
    now rewrite incr_items.
  - rewrite (interactions_items reply reblog favourites). reflexivity.
Qed.

Lemma process_line_absorbed (self : Analysis.MastodonAnalyzer) (line : string) :
  Analysis.process_line self line
  = (match Spec.counted line with Some _ => true | None => false end,
     Spec.absorbed self [line]).
Proof.
  destruct self as [h d u l p i v].
  unfold Spec.absorbed. cbn [flat_map]. rewrite !app_nil_r.
  cbn [Analysis.hour_sentiment Analysis.day_sentiment Analysis.user_sentiment
       Analysis.language_counts Analysis.hourly_post_counts
       Analysis.interaction_counts Analysis.sentiment_values].
  unfold Analysis.process_line.
  destruct (strip line =? "") eqn:B.
  { unfold Spec.additional_items, Spec.value_items, Spec.counted,
      Spec.analyzer_user_items, Spec.date_items, Spec.dated.
    rewrite B. cbn. now rewrite app_nil_r. }
  destruct (SrcSrc.MastodonData line) as [md|e] eqn:D.
  2:{ unfold Spec.additional_items, Spec.value_items, Spec.counted,
        Spec.analyzer_user_items, Spec.date_items, Spec.dated.
      rewrite B, D. cbn. now rewrite app_nil_r. }
  destruct (truthy (SrcSrc.created_at md)) eqn:T; cbn [negb].
  2:{ unfold Spec.additional_items, Spec.value_items, Spec.counted,
        Spec.analyzer_user_items, Spec.date_items, Spec.dated.
      rewrite B, D, T. cbn. now rewrite app_nil_r. }
  assert (Hd : Spec.dated line = Some md).
  { unfold Spec.dated. now rewrite B, D, T. }
  assert (Dates :
    Analysis.process_datetime md (Analysis.mkAnalyzer h d u l p i v)
    = Analysis.mkAnalyzer
        (Spec.merge_with Z.add h (Spec.date_items fmt_hour SrcSrc.sentiment line))
        (Spec.merge_with Z.add d (Spec.date_items fmt_day SrcSrc.sentiment line))
        u l
        (Spec.merge_with Z.add p (Spec.date_items fmt_hour (fun _ => 1%Z) line))
        i v).
  { unfold Analysis.process_datetime, Spec.date_items. rewrite Hd.
    destruct (SrcSrc.created_datetime_of (SrcSrc.created_at md)); [|reflexivity].
    cbn [Analysis.hour_sentiment Analysis.day_sentiment Analysis.user_sentiment
         Analysis.language_counts Analysis.hourly_post_counts
         Analysis.interaction_counts Analysis.sentiment_values].
    now rewrite !incr_items. }
  rewrite Dates.
  cbn [Analysis.hour_sentiment Analysis.day_sentiment Analysis.user_sentiment
       Analysis.language_counts Analysis.hourly_post_counts
       Analysis.interaction_counts Analysis.sentiment_values].
  unfold Analysis.process_user.
  destruct (truthy (SrcSrc.user_id md)) eqn:U.
  - destruct (to_key (SrcSrc.user_id md)) as [uid|e] eqn:K; cbn [bind].
    + assert (C : Spec.counted line = Some md).
      { unfold Spec.counted, Spec.user_key. now rewrite Hd, U, K. }
      assert (Us : Spec.analyzer_user_items line
                   = [(uid, (SrcSrc.username md, SrcSrc.sentiment md, 1%Z))]).
      { unfold Spec.analyzer_user_items, Spec.user_key. now rewrite Hd, U, K. }
      rewrite (process_additional_items line md l i C), C, Us.
      unfold Spec.value_items. rewrite C.
      destruct (Dict.get u uid) as [[[n s] c]|] eqn:G;
        unfold Spec.merge_with; cbn [fold_left]; rewrite G; reflexivity.
    + assert (C : Spec.counted line = None).
      { unfold Spec.counted, Spec.user_key. now rewrite Hd, U, K. }
      assert (Us : Spec.analyzer_user_items line = []).
      { unfold Spec.analyzer_user_items, Spec.user_key. now rewrite Hd, U, K. }
      unfold Spec.additional_items, Spec.value_items. rewrite C, Us. cbn.
      now rewrite app_nil_r.
  - assert (C : Spec.counted line = Some md).
    { unfold Spec.counted, Spec.user_key. now rewrite Hd, U. }
    assert (Us : Spec.analyzer_user_items line = []).
    { unfold Spec.analyzer_user_items, Spec.user_key. now rewrite Hd, U. }
    rewrite (process_additional_items line md l i C), C, Us.
    unfold Spec.value_items. rewrite C. reflexivity.
Qed.

Lemma absorbed_cons (self : Analysis.MastodonAnalyzer) (line : string)
    (rest : list string) :
  Spec.absorbed self (line :: rest) = Spec.absorbed (Spec.absorbed self [line]) rest.
Proof.
  unfold Spec.absorbed. cbn [flat_map]. rewrite !app_nil_r.
  cbn [Analysis.hour_sentiment Analysis.day_sentiment Analysis.user_sentiment
       Analysis.language_counts Analysis.hourly_post_counts
       Analysis.interaction_counts Analysis.sentiment_values].
  now rewrite !merge_with_app, app_assoc.
Qed.

(** The analyzer after some lines holds, accumulator by accumulator, the
    items of the lines folded into what it held. *)
Lemma process_lines_absorbed (self : Analysis.MastodonAnalyzer)
    (lines : list string) :
  Analysis.process_lines self lines = Spec.absorbed self lines.
Proof.
  unfold Analysis.process_lines. revert self.
  induction lines as [|line rest IH]; intro self; cbn [fold_left].
  - destruct self. unfold Spec.absorbed. cbn. now rewrite app_nil_r.
  - rewrite process_line_absorbed. cbn [snd]. now rewrite IH, <- absorbed_cons.
Qed.
End RanksAnalysis.

Lemma analysis_assigned_lines (file : list string) (P r : nat) :
  Analysis.assigned_lines file P r = Src.assigned_lines file P r.
Proof.
  rewrite assigned_lines_slice. unfold Analysis.assigned_lines, Src.line_range.
  cbn [fst snd]. now rewrite (Nat.mul_comm r).
Qed.

(** The accumulators of the merged analyzer are the merges of the
    accumulators of the parts. *)
Lemma merge_results_fields (parts : list Analysis.MastodonAnalyzer)
    (a : Analysis.MastodonAnalyzer) :
  fold_left Analysis.merge parts a
  = Analysis.mkAnalyzer
      (fold_left SrcSrc.merge_sum (map Analysis.hour_sentiment parts)
         (Analysis.hour_sentiment a))
      (fold_left SrcSrc.merge_sum (map Analysis.day_sentiment parts)
         (Analysis.day_sentiment a))
      (fold_left Analysis.merge_user (map Analysis.user_sentiment parts)
         (Analysis.user_sentiment a))
      (fold_left SrcSrc.merge_sum (map Analysis.language_counts parts)
         (Analysis.language_counts a))
      (fold_left SrcSrc.merge_sum (map Analysis.hourly_post_counts parts)
         (Analysis.hourly_post_counts a))
      (fold_left SrcSrc.merge_sum (map Analysis.interaction_counts parts)
         (Analysis.interaction_counts a))
      (Analysis.sentiment_values a
       ++ List.concat (map Analysis.sentiment_values parts)).
Proof.
  revert a. induction parts as [|p ps IH]; intro a; cbn [fold_left map List.concat].
  - destruct a. cbn. now rewrite app_nil_r.
  - rewrite IH. unfold Analysis.merge at 1 2 3 4 5 6 7.
    cbn [Analysis.hour_sentiment Analysis.day_sentiment Analysis.user_sentiment
         Analysis.language_counts Analysis.hourly_post_counts
         Analysis.interaction_counts Analysis.sentiment_values].
    now rewrite app_assoc.
Qed.


Section MergedAnalyzer.
Context `{Runtime}.

Lemma merged_sum_field {K B : Type} `{KeyLaws K} (g : B -> list (K * Z))
    (field : Analysis.MastodonAnalyzer -> Dict.t K Z) (slices : list (list B))
    (parts : list Analysis.MastodonAnalyzer) :
  map field parts = map (fun s => Spec.merge_with Z.add [] (flat_map g s)) slices ->
  fold_left SrcSrc.merge_sum (map field parts) []
  = Spec.merge_with Z.add [] (flat_map g (List.concat slices)).
Proof.
  intro E. rewrite E.
  rewrite (fold_left_ext _ (Spec.merge_with Z.add)) by (intros; apply merge_sum_with).
  apply merged_parts_items. intros; lia.
Qed.

(** The merge of the analyzers of consecutive slices, in order, is the
    analyzer fed the slices one after the other. *)
Lemma merge_results_absorbed (slices : list (list string)) :
  Analysis.merge_results (map (Analysis.process_lines Analysis.init) slices)
  = Analysis.process_lines Analysis.init (List.concat slices).
Proof.
  unfold Analysis.merge_results. rewrite merge_results_fields, process_lines_absorbed.
  rewrite (map_ext _ (Spec.absorbed Analysis.init))
    by (intro; apply process_lines_absorbed).
  set (parts := map (Spec.absorbed Analysis.init) slices).
  unfold Spec.absorbed.
  cbn [Analysis.hour_sentiment Analysis.day_sentiment Analysis.user_sentiment
       Analysis.language_counts Analysis.hourly_post_counts
       Analysis.interaction_counts Analysis.sentiment_values Analysis.init app].
  subst parts. f_equal.
  - apply merged_sum_field. now rewrite map_map.
  - apply merged_sum_field. now rewrite map_map.
  - rewrite map_map. cbn.
    rewrite (fold_left_ext _ (Spec.merge_with Spec.join3))
      by (intros; apply merge_user3_with).
    apply (merged_parts_items Spec.join3 Spec.analyzer_user_items).
    apply join3_assoc.
  - apply (merged_sum_field (fun line => fst (Spec.additional_items line))).
    now rewrite map_map.
  - apply merged_sum_field. now rewrite map_map.
  - apply (merged_sum_field (fun line => snd (Spec.additional_items line))).
    now rewrite map_map.
  - rewrite map_map. unfold Spec.absorbed.
    cbn [Analysis.sentiment_values Analysis.init app].
    now rewrite flat_map_concat.
Qed.
End MergedAnalyzer.

(** [analyze_mastodon_data] on any number of ranks against one pass,
    with the exact addition of the model. *)
Lemma analyze_mastodon_data_one_pass `{Runtime}
    (file : list string) (P : nat) :
  (1 <= P)%nat ->
  Analysis.analyze_mastodon_data file P
  = Analysis.process_lines Analysis.init file.
Proof.
  intro HP.
  assert (C : List.concat (map (Analysis.assigned_lines file P) (seq 0 P)) = file).
  { rewrite (map_ext _ (Src.assigned_lines file P))
      by (intro; apply analysis_assigned_lines).
    now apply assigned_lines_cover. }
  unfold Analysis.analyze_mastodon_data.
  destruct (P =? 1)%nat eqn:E.
  - apply Nat.eqb_eq in E. subst P. cbn [seq map List.concat] in C.
    rewrite app_nil_r in C. now rewrite C.
  - rewrite <- (map_map (Analysis.assigned_lines file P)
                  (Analysis.process_lines Analysis.init)).
    rewrite merge_results_absorbed. now rewrite C.
Qed.



(** ** Reading the lines of a rank *)

(** X3. The reading loop of the first [main.py] ([continue] before
    [line_to_start], [break] from [line_to_end] on) runs its body, in
    order, over exactly the lines numbered [line_to_start] up to
    [line_to_end - 1], whatever the body and its state; when
    [line_to_end <= line_to_start] it runs it over no line. *)
Theorem reading_loop_runs_over_its_range {S : Type} (body : string -> S -> S)
    (file : list string) (line_to_start line_to_end : nat) (st : S) :
  Src.read_loop body 0 file line_to_start line_to_end st
  = fold_left (fun st line => body line st)
      (firstn (line_to_end - line_to_start) (skipn line_to_start file)) st.
Proof.
  rewrite read_loop_slice. now rewrite Nat.max_0_l, Nat.sub_0_r.
Qed.

(** X4. Reading the range of a rank sub-chunk after sub-chunk, as the
    refined [main.py] does with [read_data_chunk] over
    [range(start_line, end_line, max_chunk)], yields the lines of the
    range once each and in order, whatever the positive sub-chunk size:
    the same lines as one [read_data_chunk] over the whole range. *)
Theorem sub_chunks_read_the_range (file : list string)
    (start_line end_line step : nat) :
  (0 < step)%nat ->
  flat_map
    (fun chunk_start =>
       SrcSrc.read_data_chunk file chunk_start
         (Nat.min (chunk_start + step) end_line))
    (SrcSrc.range start_line end_line step)
  = SrcSrc.read_data_chunk file start_line end_line.
Proof.
  intro Hs. unfold SrcSrc.range, SrcSrc.read_data_chunk at 2.
  now apply chunks_slice.
Qed.

Lemma sub_chunks_read_the_range_witness :
  flat_map
    (fun chunk_start =>
       SrcSrc.read_data_chunk Sample.six_posts chunk_start
         (Nat.min (chunk_start + 2) 6))
    (SrcSrc.range 1 6 2)
  = SrcSrc.read_data_chunk Sample.six_posts 1 6.
Proof.
  assert (Hs : (0 < 2)%nat) by lia.
  exact (sub_chunks_read_the_range Sample.six_posts 1 6 2 Hs).
Defined.

(** ** merge_list and the selection *)








(** ** What the selection returns *)

Section Selection.
Context {A : Type}.

Lemma sorted_firstn_skipn (R : A -> A -> Prop) (l : list A) (n : nat) :
  StronglySorted R l ->
  StronglySorted R (firstn n l)
  /\ forall x y, In x (firstn n l) -> In y (skipn n l) -> R x y.
Proof.
  intro S. revert n. induction S as [|a l S IH F]; intro n.
  - rewrite firstn_nil. split; [constructor | intros x y []].
  - destruct n as [|n]; cbn [firstn skipn].
    + split; [constructor | intros x y []].
    + destruct (IH n) as [S' D]. rewrite Forall_forall in F. split.
      * constructor; [assumption|]. apply Forall_forall.
        intros x I. apply F. rewrite <- (firstn_skipn n l).
        apply in_or_app. now left.
      * intros x y [<-|I] J; [|now apply D].
        apply F. rewrite <- (firstn_skipn n l). apply in_or_app. now right.
Qed.

Lemma nlargest_top_of (key : A -> Z) (n : nat) (l : list A) :
  Spec.top_of key n l (Heapq.nlargest key n l).
Proof.
  unfold Spec.top_of, Heapq.nlargest.
  pose proof (sorted_reverse_perm key l) as P.
  destruct (sorted_firstn_skipn _ _ n (sorted_reverse_descending key l)) as [S D].
  refine (conj _ (conj _ (conj S _))).
  - rewrite length_firstn. now rewrite (Permutation_length P).
  - intros x I. eapply Permutation_in; [exact P|].
    rewrite <- (firstn_skipn n (Heapq.sorted_reverse key l)).
    apply in_or_app. now left.
  - intros x y Ix Iy Ny. apply D; [assumption|].
    apply (Permutation_in _ (Permutation_sym P)) in Iy.
    rewrite <- (firstn_skipn n) in Iy. apply in_app_or in Iy. tauto.
Qed.
End Selection.


(** ** What analyze_chunk counts *)

Section Chunk.
Context `{Runtime}.

Lemma analyze_chunk_fold (lines : list string) (n : nat)
    (self : Analysis.MastodonAnalyzer) :
  fold_left
    (fun (st : nat * Analysis.MastodonAnalyzer) line =>
       let '(ok, self') := Analysis.process_line (snd st) line in
       ((if ok then Datatypes.S (fst st) else fst st), self'))
    lines (n, self)
  = ((n + List.length (flat_map Spec.value_items lines))%nat,
     Analysis.process_lines self lines).
Proof.
  unfold Analysis.process_lines. revert n self.
  induction lines as [|line rest IH]; intros n self; cbn [fold_left flat_map].
  - now rewrite Nat.add_0_r.
  - cbn [snd fst]. rewrite process_line_absorbed. cbn [snd].
    rewrite IH, length_app. f_equal. unfold Spec.value_items at 2.
    destruct (Spec.counted line); cbn [List.length]; lia.
Qed.

Lemma value_items_length (lines : list string) :
  (List.length (flat_map Spec.value_items lines) <= List.length lines)%nat.
Proof.
  induction lines as [|line rest IH]; cbn [flat_map List.length]; [lia|].
  rewrite length_app. unfold Spec.value_items at 1.
  destruct (Spec.counted line); cbn [List.length]; lia.
Qed.
End Chunk.

(** X10. [analyze_chunk] leaves the analyzer as feeding the lines to
    [process_line] one by one does, and the number it returns is the
    number of sentiment values it appended, the growth of [total_posts];
    it is at most the number of lines and depends on the lines only, not
    on what the analyzer held before. *)
Theorem analyze_chunk_counts_the_posts_added `{Runtime}
    (self : Analysis.MastodonAnalyzer) (lines : list string) :
  snd (Analysis.analyze_chunk self lines) = Analysis.process_lines self lines
  /\ List.length (Analysis.sentiment_values (snd (Analysis.analyze_chunk self lines)))
     = (List.length (Analysis.sentiment_values self)
        + fst (Analysis.analyze_chunk self lines))%nat
  /\ (fst (Analysis.analyze_chunk self lines) <= List.length lines)%nat
  /\ fst (Analysis.analyze_chunk self lines)
     = fst (Analysis.analyze_chunk Analysis.init lines).
Proof.
  unfold Analysis.analyze_chunk. rewrite !analyze_chunk_fold. cbn [fst snd].
  refine (conj eq_refl (conj _ (conj (value_items_length lines) eq_refl))).
  rewrite process_lines_absorbed. unfold Spec.absorbed.
  cbn [Analysis.sentiment_values]. now rewrite length_app.
Qed.

(** ** Totals *)

Section Totals.
Context {K V : Type} `{KeyLaws K}.
Variable amount : V -> Z.
Variable f : V -> V -> V.
Hypothesis f_amount : forall x y, amount (f x y) = (amount x + amount y)%Z.

Lemma total_app (d d' : list (K * V)) :
  Spec.total amount (d ++ d') = (Spec.total amount d + Spec.total amount d')%Z.
Proof.
  induction d as [|kv r IH]; cbn [app Spec.total fold_right]; [reflexivity|].
  fold (Spec.total amount (r ++ d')). fold (Spec.total amount r). lia.
Qed.

Lemma total_set (d : Dict.t K V) (k : K) (v : V) :
  Spec.total amount (Dict.set d k v)
  = (Spec.total amount d
     - match Dict.get d k with Some e => amount e | None => 0 end
     + amount v)%Z.
Proof.
  induction d as [|[k0 v0] r IH]; cbn [Dict.set Dict.get].
  - cbn. lia.
  - destruct (keqb k0 k); cbn [Spec.total fold_right snd].
    + lia.
    + fold (Spec.total amount (Dict.set r k v)). fold (Spec.total amount r). lia.
Qed.

(** A fold of items adds the amounts of the items to the total. *)
Lemma total_merge_with (a : Dict.t K V) (items : list (K * V)) :
  Spec.total amount (Spec.merge_with f a items)
  = (Spec.total amount a + Spec.total amount items)%Z.
Proof.
  unfold Spec.merge_with. revert a.
  induction items as [|[k v] r IH]; intro a; cbn [fold_left].
  - cbn. lia.
  - rewrite IH. cbn [Spec.total fold_right snd]. fold (Spec.total amount r).
    destruct (Dict.get a k) eqn:G; rewrite total_set, G, ?f_amount; lia.
Qed.

(** A key holds at least 1 when every item gives at least 1. *)
Lemma gathered_at_least (items : list (K * V)) (k : K) (x : V) :
  Forall (fun kv => (1 <= amount (snd kv))%Z) items ->
  Spec.gathered f k items = Some x -> (1 <= amount x)%Z.
Proof.
  intro F. revert x. induction F as [|[k0 v0] r F0 Fr IH]; intro x;
    cbn [Spec.gathered]; [discriminate|].
  cbn [snd] in F0. destruct (keqb k0 k); [|apply IH].
  destruct (Spec.gathered f k r) as [y|]; cbn [Spec.opt_merge]; intro E;
    inversion E; subst; [|assumption].
  rewrite f_amount. specialize (IH y eq_refl). lia.
Qed.
End Totals.

Section AnalyzerInvariants.
Context `{Runtime}.

Lemma date_items_keys (fmt : format) (amount amount' : SrcSrc.MastodonData_obj -> Z)
    (lines : list string) :
  map fst (flat_map (Spec.date_items fmt amount) lines)
  = map fst (flat_map (Spec.date_items fmt amount') lines).
Proof.
  induction lines as [|line rest IH]; cbn [flat_map]; [reflexivity|].
  rewrite !map_app, IH. f_equal. unfold Spec.date_items.
  destruct (Spec.dated line) as [md|]; [|reflexivity].
  now destruct (SrcSrc.created_datetime_of (SrcSrc.created_at md)).
Qed.

Lemma post_items_at_least (lines : list string) :
  Forall (fun kv : string * Z => (1 <= snd kv)%Z)
    (flat_map (Spec.date_items fmt_hour (fun _ => 1%Z)) lines).
Proof.
  apply Forall_flat_map, Forall_forall. intros line _. unfold Spec.date_items.
  destruct (Spec.dated line) as [md|]; [|constructor].
  destruct (SrcSrc.created_datetime_of (SrcSrc.created_at md));
    constructor; [cbn; lia | constructor].
Qed.

Lemma user_items_at_least (lines : list string) :
  Forall (fun kv : hkey * (value * Z * Z) => (1 <= snd (snd kv))%Z)
    (flat_map Spec.analyzer_user_items lines).
Proof.
  apply Forall_flat_map, Forall_forall. intros line _.
  unfold Spec.analyzer_user_items.
  destruct (Spec.dated line) as [md|]; [|constructor].
  destruct (Spec.user_key md) as [[uid|]|];
    constructor; [cbn; lia | constructor].
Qed.
End AnalyzerInvariants.

(** X11. Whatever the file and the number of ranks, the analyzer
    [analyze_mastodon_data] leaves on the root has a post count for
    exactly the hours that have a sentiment sum, in the same order, and
    every post count is at least 1, so [get_hourly_sentiment_avg] gives
    an average for every hour; and every user entry has a post count of
    at least 1, so [avg_sentiment_per_user] drops no user. The three
    facts are about keys and integer counts only. *)
Theorem analyzer_invariants `{Runtime} (file : list string) (P : nat) :
  (1 <= P)%nat ->
  let a := Analysis.analyze_mastodon_data file P in
  Dict.keys (Analysis.hourly_post_counts a) = Dict.keys (Analysis.hour_sentiment a)
  /\ (forall hour count,
        Dict.get (Analysis.hourly_post_counts a) hour = Some count ->
        (1 <= count)%Z)
  /\ (forall user_id username score count,
        Dict.get (Analysis.user_sentiment a) user_id = Some (username, score, count) ->
        (1 <= count)%Z).
Proof.
  intros HP a. unfold a.
  rewrite (analyze_mastodon_data_one_pass file P HP), process_lines_absorbed.
  unfold Spec.absorbed.
  cbn [Analysis.hour_sentiment Analysis.day_sentiment Analysis.user_sentiment
       Analysis.hourly_post_counts Analysis.init].
  refine (conj _ (conj _ _)).
  - rewrite !(keys_merge_with Z.add). f_equal. apply date_items_keys.
  - intros hour count G.
    rewrite (get_merge_items Z.add) in G by (intros; lia).
    cbn [Dict.get] in G. rewrite (opt_merge_None_l Z.add) in G.
    apply (gathered_at_least (fun z => z) Z.add (fun x y => eq_refl) _ _ _
             (post_items_at_least file) G).
  - intros user_id username score count G.
    rewrite (get_merge_items Spec.join3) in G by (intros; apply join3_assoc).
    cbn [Dict.get] in G. rewrite (opt_merge_None_l Spec.join3) in G.
    apply (gathered_at_least (fun x : value * Z * Z => snd x) Spec.join3
             (fun x y => eq_refl) _ _ _ (user_items_at_least file) G).
Qed.

Lemma analyzer_invariants_witness :
  Dict.keys (Analysis.hourly_post_counts
               (@Analysis.analyze_mastodon_data Sample.runtime Sample.six_posts 4))
  = Dict.keys (Analysis.hour_sentiment
                 (@Analysis.analyze_mastodon_data Sample.runtime Sample.six_posts 4)).
Proof.
  assert (HP : (1 <= 4)%nat) by lia.
  exact (proj1 (@analyzer_invariants Sample.runtime Sample.six_posts 4 HP)).
Defined.

Section RegularFile.
Context `{Runtime}.

Lemma sum_values_app (l l' : list Z) :
  Spec.sum_values (l ++ l') = (Spec.sum_values l + Spec.sum_values l')%Z.
Proof.
  induction l as [|z r IH]; cbn [app Spec.sum_values fold_right]; [reflexivity|].
  fold (Spec.sum_values (r ++ l')). fold (Spec.sum_values r). lia.
Qed.

Lemma regular_cons (line : string) (rest : list string) :
  Spec.regular (line :: rest) -> Spec.regular [line] /\ Spec.regular rest.
Proof.
  intro R. split; intros l md I D; apply (R l md); auto.
  - destruct I as [<-|[]]. now left.
  - now right.
Qed.

(** On a regular file a line gives its amount to the hour exactly when
    [process_line] counts it. *)
Lemma regular_totals (amount : SrcSrc.MastodonData_obj -> Z) (lines : list string) :
  Spec.regular lines ->
  Spec.total (fun z => z) (flat_map (Spec.date_items fmt_hour amount) lines)
  = Spec.sum_values
      (flat_map (fun line => match Spec.counted line with
                             | Some md => [amount md]
                             | None => []
                             end) lines).
Proof.
  induction lines as [|line rest IH]; intro R; cbn [flat_map]; [reflexivity|].
  apply regular_cons in R. destruct R as [R1 R].
  rewrite total_app, sum_values_app, (IH R). f_equal.
  unfold Spec.date_items, Spec.counted.
  destruct (Spec.dated line) as [md|] eqn:D; [|reflexivity].
  destruct (R1 line md (or_introl eq_refl) D) as [[dt Edt] [k Ek]].
  rewrite Edt, Ek. cbn. lia.
Qed.

Lemma sum_of_ones (lines : list string) :
  Spec.sum_values
    (flat_map (fun line => match Spec.counted line with
                           | Some md => [1%Z]
                           | None => []
                           end) lines)
  = Z.of_nat (List.length (flat_map Spec.value_items lines)).
Proof.
  induction lines as [|line rest IH]; cbn [flat_map]; [reflexivity|].
  rewrite sum_values_app, length_app, IH, Nat2Z.inj_add. f_equal.
  unfold Spec.value_items. now destruct (Spec.counted line).
Qed.
End RegularFile.

(** X12. When every record of the file that passes the guards of
    [process_line] has a time stamp that parses and a user id that can
    be hashed, no post is lost or counted twice, whatever the number of
    ranks: the posts per hour, which are integers, add up to
    [total_posts], the number of sentiment values. *)
Theorem regular_file_post_counts `{Runtime} (file : list string) (P : nat) :
  (1 <= P)%nat -> Spec.regular file ->
  let a := Analysis.analyze_mastodon_data file P in
  Spec.total (fun z => z) (Analysis.hourly_post_counts a)
  = Z.of_nat (List.length (Analysis.sentiment_values a)).
Proof.
  intros HP R a. unfold a.
  rewrite (analyze_mastodon_data_one_pass file P HP), process_lines_absorbed.
  unfold Spec.absorbed.
  cbn [Analysis.hourly_post_counts Analysis.sentiment_values Analysis.init app].
  rewrite (total_merge_with (fun z => z) Z.add) by reflexivity.
  rewrite (regular_totals _ file R), sum_of_ones. cbn [Spec.total fold_right].
  reflexivity.
Qed.

Lemma regular_file_post_counts_witness :
  Spec.total (fun z => z)
    (Analysis.hourly_post_counts
       (@Analysis.analyze_mastodon_data Sample.runtime Sample.six_posts 4))
  = Z.of_nat
      (List.length
         (Analysis.sentiment_values
            (@Analysis.analyze_mastodon_data Sample.runtime Sample.six_posts 4))).
Proof.
  refine (@regular_file_post_counts Sample.runtime Sample.six_posts 4 _ _).
  - lia.
  - intros line md I D.
    repeat (destruct I as [<-|I];
            [vm_compute in D; inversion D; subst;
             split; eexists; vm_compute; reflexivity|]).
    destruct I.
Defined.

(** ** What a merge keeps *)

Section MergeOrder.
Context {K V : Type} `{KeyLaws K}.
Variable f : V -> V -> V.

Lemma seen_app (ks : list K) (k k' : K) :
  k <> k' -> Spec.seen (ks ++ [k]) k' = Spec.seen ks k'.
Proof.
  intro N. unfold Spec.seen. rewrite existsb_app. cbn [existsb].
  rewrite (keqb_neq _ _ N). now rewrite !orb_false_r.
Qed.

Lemma first_seen_NoDup (ks new : list K) :
  NoDup new ->
  Spec.first_seen ks new = ks ++ filter (fun k => negb (Spec.seen ks k)) new.
Proof.
  unfold Spec.first_seen. intro N. revert ks.
  induction N as [|k r Hnin N IH]; intro ks; cbn [fold_left filter].
  - now rewrite app_nil_r.
  - rewrite IH. destruct (Spec.seen ks k) eqn:S; cbn [negb]; [reflexivity|].
    rewrite <- app_assoc. cbn [app]. do 2 f_equal.
    apply filter_ext_in. intros x I. f_equal. apply seen_app.
    intros ->. contradiction.
Qed.

(** The keys after the merge of a contribution: those already there, in
    their order, then the new keys in the order of the contribution. *)
Lemma keys_merge_contribution (a b : Dict.t K V) :
  Dict.wf b ->
  Dict.keys (Spec.merge_with f a b)
  = Dict.keys a ++ filter (fun k => negb (Dict.contains a k)) (Dict.keys b).
Proof.
  intro W. rewrite keys_merge_with. fold (Dict.keys b).
  rewrite (first_seen_NoDup _ _ W). f_equal.
  apply filter_ext. intro k. now rewrite contains_seen.
Qed.

Lemma merge_into_empty (b : Dict.t K V) :
  Dict.wf b -> Spec.merge_with f [] b = b.
Proof.
  intro W. apply eq_of_keys_equiv.
  - apply wf_merge_with. constructor.
  - rewrite (keys_merge_contribution [] b W). cbn [Dict.keys map app].
    rewrite <- (filter_ext (fun _ => true)) by reflexivity.
    apply forallb_filter_id. now apply forallb_forall.
  - intro k. rewrite get_merge_with by assumption.
    cbn [Dict.get]. now destruct (Dict.get b k).
Qed.
End MergeOrder.

(** X13. The merge loops of the root never move an entry that is already
    merged: after the merge of a contribution the keys are those the
    result had, in their order, followed by the new keys of the
    contribution in its own order, for the hour sums as for the users.
    Merged into empty dictionaries, a contribution comes out unchanged. *)
Theorem merge_keeps_the_insertion_order (reduced_hours hours : SrcSrc.hour_dict)
    (reduced_users users : SrcSrc.user_dict) :
  Dict.wf hours -> Dict.wf users ->
  Dict.keys (SrcSrc.merge_sum reduced_hours hours)
  = Dict.keys reduced_hours
    ++ filter (fun k => negb (Dict.contains reduced_hours k)) (Dict.keys hours)
  /\ Dict.keys (SrcSrc.merge_user reduced_users users)
     = Dict.keys reduced_users
       ++ filter (fun k => negb (Dict.contains reduced_users k)) (Dict.keys users)
  /\ SrcSrc.reduced_hour_sentiment [hours] = hours
  /\ SrcSrc.reduced_user_sentiment [users] = users.
Proof.
  intros Wh Wu.
  unfold SrcSrc.reduced_hour_sentiment, SrcSrc.reduced_user_sentiment.
  cbn [fold_left]. rewrite !merge_sum_with, !merge_user_with.
  rewrite !keys_merge_contribution by assumption.
  rewrite !merge_into_empty by assumption.
  repeat split.
Qed.

Lemma merge_keeps_the_insertion_order_witness :
  Dict.keys (SrcSrc.merge_sum Sample.high_half Sample.six_hours)
  = Dict.keys Sample.high_half
    ++ filter (fun k => negb (Dict.contains Sample.high_half k))
         (Dict.keys Sample.six_hours).
Proof.
  refine (proj1 (merge_keeps_the_insertion_order Sample.high_half Sample.six_hours
                   Sample.users_alice Sample.users_alicia _ _));
    unfold Dict.wf; cbn;
    repeat (constructor; [cbn; intuition congruence|]); constructor.
Defined.

(** X14. [merge_results] conserves every count: after the merge of a
    contribution, the integers of each count dictionary add up to what
    the two sides added up to, for the language, post and interaction
    counts and for the post counts of the users; the sentiment values
    are as many as the two sides had. *)
Theorem merge_conserves_the_counts (merged proc : Analysis.MastodonAnalyzer) :
  let sum {K : Type} (d : Dict.t K Z) := Spec.total (fun z => z) d in
  let counts (d : Dict.t hkey (value * Z * Z)) :=
    Spec.total (fun x : value * Z * Z => snd x) d in
  let m := Analysis.merge merged proc in
  sum (Analysis.language_counts m)
  = (sum (Analysis.language_counts merged) + sum (Analysis.language_counts proc))%Z
  /\ sum (Analysis.hourly_post_counts m)
     = (sum (Analysis.hourly_post_counts merged)
        + sum (Analysis.hourly_post_counts proc))%Z
  /\ sum (Analysis.interaction_counts m)
     = (sum (Analysis.interaction_counts merged)
        + sum (Analysis.interaction_counts proc))%Z
  /\ counts (Analysis.user_sentiment m)
     = (counts (Analysis.user_sentiment merged)
        + counts (Analysis.user_sentiment proc))%Z
  /\ List.length (Analysis.sentiment_values m)
     = (List.length (Analysis.sentiment_values merged)
        + List.length (Analysis.sentiment_values proc))%nat.
Proof.
  cbv zeta. unfold Analysis.merge.
  cbn [Analysis.hour_sentiment Analysis.day_sentiment Analysis.user_sentiment
       Analysis.language_counts Analysis.hourly_post_counts
       Analysis.interaction_counts Analysis.sentiment_values].
  rewrite !merge_sum_with, merge_user3_with, length_app.
  rewrite !(total_merge_with (fun z => z) Z.add) by reflexivity.
  rewrite (total_merge_with (fun x : value * Z * Z => snd x) Spec.join3)
    by reflexivity.
  repeat split.
Qed.

(** ** Irregular records *)

Section Irregular.
Context `{Runtime}.

Lemma unreadable_first (line : string) (json_data : value) :
  json_loads line = Some json_data -> Spec.readable json_data = false ->
  exists e, Src.MastodonData line = Raise e.
Proof.
  intros J R. unfold Src.MastodonData. rewrite J.
  destruct json_data as [| | | |d]; try (eexists; reflexivity).
  cbn [py_get bind]. cbn [Spec.readable] in R.
  destruct (assoc "account" d) as [[| | | |a]|]; try discriminate;
    eexists; reflexivity.
Qed.

Lemma unreadable_refined (line : string) (json_data : value) :
  json_loads line = Some json_data -> Spec.readable json_data = false ->
  exists e, SrcSrc.MastodonData line = Raise e.
Proof.
  intros J R. unfold SrcSrc.MastodonData. rewrite J.
  destruct json_data as [| | | |d]; try (eexists; reflexivity).
  cbn [py_get bind]. cbn [Spec.readable] in R.
  destruct (SrcSrc.sentiment_of (VDict d)) as [s|e]; cbn [bind];
    [|eexists; reflexivity].
  destruct (assoc "account" d) as [[| | | |a]|]; try discriminate;
    eexists; reflexivity.
Qed.
End Irregular.

(** X15. A line that is valid JSON but not an object, or an object whose
    [account] is present and not an object ([null] included), is dropped
    whole by the three aggregators: [processing_data] of both variants
    leaves the hour and user dictionaries as they were, and
    [process_line] returns [False] with the analyzer unchanged, whatever
    time stamp and sentiment the record carries. *)
Theorem unreadable_record_is_dropped `{Runtime} (line : string) (json_data : value)
    (hours : Dict.t string Z) (users1 : Src.user_dict) (users2 : SrcSrc.user_dict)
    (self : Analysis.MastodonAnalyzer) :
  json_loads line = Some json_data -> Spec.readable json_data = false ->
  Src.processing_data line hours users1 = (hours, users1)
  /\ SrcSrc.processing_data line hours users2 = (hours, users2)
  /\ Analysis.process_line self line = (false, self).
Proof.
  intros J R.
  destruct (unreadable_first line json_data J R) as [e1 E1].
  destruct (unreadable_refined line json_data J R) as [e2 E2].
  unfold Src.processing_data, SrcSrc.processing_data, Analysis.process_line.
  rewrite E1, E2. repeat split. now destruct (strip line =? "").
Qed.

Lemma unreadable_record_is_dropped_witness :
  @Analysis.process_line Sample.irregular_runtime Sample.part1
    Sample.line_null_account
  = (false, Sample.part1).
Proof.
  refine (proj2 (proj2 (@unreadable_record_is_dropped Sample.irregular_runtime
            Sample.line_null_account Sample.obj_null_account [] [] []
            Sample.part1 _ _))).
  - vm_compute. reflexivity.
  - vm_compute. reflexivity.
Defined.

(** X16. [process_line] can return [False] after it has changed the
    analyzer: for a record with a time stamp that parses and a user id
    that cannot be hashed (a list or an object), the sentiment is added
    to its hour and to its day and the post is counted in its hour, then
    the user block raises; the users, the language and interaction
    counts and the sentiment values stay as they were, so the post is
    missing from [total_posts]. *)
Theorem unhashable_user_id_is_counted_in_the_hour `{Runtime}
    (self : Analysis.MastodonAnalyzer) (line : string)
    (mastodon_data : SrcSrc.MastodonData_obj) (created_datetime : datetime)
    (e : exn) :
  (strip line =? "") = false ->
  SrcSrc.MastodonData line = Ok mastodon_data ->
  truthy (SrcSrc.created_at mastodon_data) = true ->
  SrcSrc.created_datetime_of (SrcSrc.created_at mastodon_data) = Ok created_datetime ->
  truthy (SrcSrc.user_id mastodon_data) = true ->
  to_key (SrcSrc.user_id mastodon_data) = Raise e ->
  let hour_key := strftime created_datetime fmt_hour in
  let day_key := strftime created_datetime fmt_day in
  Analysis.process_line self line
  = (false,
     Analysis.mkAnalyzer
       (Analysis.incr (Analysis.hour_sentiment self) hour_key
          (SrcSrc.sentiment mastodon_data))
       (Analysis.incr (Analysis.day_sentiment self) day_key
          (SrcSrc.sentiment mastodon_data))
       (Analysis.user_sentiment self)
       (Analysis.language_counts self)
       (Analysis.incr (Analysis.hourly_post_counts self) hour_key 1)
       (Analysis.interaction_counts self)
       (Analysis.sentiment_values self)).
Proof.
  intros B M C D T U hour_key day_key.
  unfold Analysis.process_line. rewrite B, M, C. cbn [negb].
  unfold Analysis.process_datetime, Analysis.process_user. rewrite D.
  cbn [Analysis.user_sentiment]. rewrite T, U. reflexivity.
Qed.

Lemma unhashable_user_id_is_counted_in_the_hour_witness :
  @Analysis.process_line Sample.irregular_runtime Analysis.init Sample.line_list_id
  = (false,
     Analysis.mkAnalyzer [("2023-03-15 14", 2%Z)] [("2023-03-15", 2%Z)] [] []
       [("2023-03-15 14", 1%Z)] [] []).
Proof.
  refine (@unhashable_user_id_is_counted_in_the_hour Sample.irregular_runtime
            Analysis.init Sample.line_list_id
            (SrcSrc.mkMastodonData (VStr "2023-03-15T14:05:00Z") 2
               (VList [VNum 7]) (VStr "eve"))
            (mkdatetime 2023 3 15 14 5 0) TypeError _ _ _ _ _ _);
    vm_compute; reflexivity.
Defined.

(** ** main.py and analysis.py side by side *)

Section Projection.
Context {K V W : Type} `{KeyLaws K}.
Variable p : V -> W.
Variable f : V -> V -> V.
Variable g : W -> W -> W.
Hypothesis p_f : forall x y, p (f x y) = g (p x) (p y).



End Projection.

Section SideBySide.
Context `{Runtime}.




End SideBySide.



(** ** The two variants of main.py side by side *)

Section Variants.
Context `{Runtime}.










End Variants.



(** ** The chunks of analyze_mastodon_data *)

Section Chunks.
Context `{Runtime}.

Lemma analyze_chunk_value (self : Analysis.MastodonAnalyzer) (lines : list string) :
  Analysis.analyze_chunk self lines
  = (List.length (flat_map Spec.value_items lines),
     Analysis.process_lines self lines).
Proof. unfold Analysis.analyze_chunk. now rewrite analyze_chunk_fold. Qed.

Lemma process_lines_app (self : Analysis.MastodonAnalyzer) (a b : list string) :
  Analysis.process_lines self (a ++ b)
  = Analysis.process_lines (Analysis.process_lines self a) b.
Proof. unfold Analysis.process_lines. apply fold_left_app. Qed.

(** What the loop has counted and what it still holds in its chunk make
    up the lines read so far. *)
Lemma chunk_loop_invariant (chunk_size : nat) (lines : list string)
    (lines_processed : nat) (current_chunk : list string)
    (self : Analysis.MastodonAnalyzer) :
  let '(n, chunk, self') :=
    fold_left (Analysis.chunk_step chunk_size) lines
      (lines_processed, current_chunk, self) in
  (n + List.length (flat_map Spec.value_items chunk)
   = lines_processed
     + List.length (flat_map Spec.value_items (current_chunk ++ lines)))%nat
  /\ Analysis.process_lines self' chunk
     = Analysis.process_lines self (current_chunk ++ lines).
Proof.
  revert lines_processed current_chunk self.
  induction lines as [|line rest IH]; intros n chunk self; cbn [fold_left].
  - now rewrite app_nil_r.
  - unfold Analysis.chunk_step at 2.
    destruct (chunk_size <=? List.length (chunk ++ [line]))%nat.
    + rewrite analyze_chunk_value.
      specialize (IH (n + List.length (flat_map Spec.value_items (chunk ++ [line])))%nat
                    [] (Analysis.process_lines self (chunk ++ [line]))).
      destruct (fold_left _ rest _) as [[n' chunk'] self'].
      destruct IH as [C P]. cbn [app] in C, P.
      replace (chunk ++ line :: rest) with ((chunk ++ [line]) ++ rest)
        by now rewrite <- app_assoc.
      rewrite (flat_map_app _ (chunk ++ [line]) rest), length_app.
      rewrite (process_lines_app self (chunk ++ [line]) rest).
      split; [lia | exact P].
    + specialize (IH n (chunk ++ [line]) self).
      destruct (fold_left _ rest _) as [[n' chunk'] self'].
      now rewrite <- app_assoc in IH.
Qed.
End Chunks.

(** X20. The reading loop of [analyze_mastodon_data], which hands the
    lines of the rank to [analyze_chunk] in chunks of [chunk_size] lines
    and the remaining lines at the end, leaves the analyzer and the
    count [lines_processed] that one [analyze_chunk] over all the lines
    gives, whatever the chunk size. *)
Theorem chunk_size_does_not_matter `{Runtime} (chunk_size : nat)
    (lines : list string) (self : Analysis.MastodonAnalyzer) :
  Analysis.analyze_lines chunk_size lines self = Analysis.analyze_chunk self lines.
Proof.
  unfold Analysis.analyze_lines.
  pose proof (chunk_loop_invariant chunk_size lines 0 [] self) as I.
  destruct (fold_left _ lines _) as [[n chunk] self'].
  cbn [app] in I. destruct I as [C P].
  rewrite (analyze_chunk_value self lines), <- P.
  destruct chunk as [|line rest].
  - cbn in C. cbn. f_equal. lia.
  - rewrite analyze_chunk_value. f_equal. lia.
Qed.

(** ** The formatted results *)

Section Formatted.
Context {S F : Type}.
Variable strptime : string -> option datetime.

Lemma comprehension_raises {A B : Type} (f : A -> Analysis.outcome B) (l : list A) :
  (forall x, f x = Analysis.KeyError) -> l <> [] ->
  Analysis.comprehension f l = Analysis.KeyError.
Proof.
  intros E N. destruct l as [|x r]; [contradiction|].
  cbn [Analysis.comprehension]. now rewrite E.
Qed.

Lemma nlargest_nil {A : Type} (key : A -> Z) (n : nat) (l : list A) :
  (0 < n)%nat -> Heapq.nlargest key n l = [] -> l = [].
Proof.
  intros N E. destruct (nlargest_top_of key n l) as [L _].
  rewrite E in L. cbn in L. destruct l; [reflexivity|]. cbn in L. lia.
Qed.
End Formatted.

(** X21. [format_results] reads [results["user_sentiment"]] for every
    ranked user, a key the dictionary of [_get_analysis_results] does not
    have: it raises [KeyError] as soon as one of the user rankings holds
    an entry, which is the case whenever the analyzer has a user, and
    returns the formatted results only when the five user rankings are
    empty. *)
Theorem format_results_raises_with_a_user {S F : Type}
    (strptime : string -> option datetime) (r : Analysis.results S F) :
  (forall self : Analysis.MastodonAnalyzer,
      Analysis.res_happiest_users r = Analysis.happiest_users self ->
      Analysis.user_sentiment self <> [] ->
      Analysis.format_results strptime r = Analysis.KeyError)
  /\ (Analysis.res_happiest_users r = [] ->
      Analysis.res_saddest_users r = [] ->
      Analysis.res_most_positive_users r = [] ->
      Analysis.res_most_negative_users r = [] ->
      exists f, Analysis.format_results strptime r = Analysis.Returned f).
Proof.
  split.
  - intros self E N. unfold Analysis.format_results.
    rewrite comprehension_raises; [reflexivity | now intros [uid info] |].
    rewrite E. unfold Analysis.happiest_users. intro Q.
    apply nlargest_nil in Q; [contradiction | unfold Analysis.top_n; lia].
  - intros E1 E2 E3 E4. unfold Analysis.format_results.
    rewrite E1, E2, E3, E4. cbn [Analysis.comprehension]. eexists. reflexivity.
Qed.

Lemma format_results_raises_with_a_user_witness :
  Analysis.format_results (fun _ => None)
    (@Analysis.mkResults unit unit [] [] [] []
       (Analysis.happiest_users Sample.part1) (Analysis.saddest_users Sample.part1)
       (Analysis.most_active_users Sample.part1) [] [] tt [] [] [])
  = Analysis.KeyError.
Proof.
  refine (proj1 (format_results_raises_with_a_user (fun _ => None) _)
            Sample.part1 _ _).
  - reflexivity.
  - vm_compute. discriminate.
Defined.
